(** * Tezos reward distributor: the scanner / executor pipeline of [main.py]

    A shallow embedding of [src/main.py].  The two thread classes are
    embedded as small-step transition functions over a shared [World]
    (file system, bounded job queue, trace of log lines and external
    calls); every answer that comes from outside the file (block API,
    reward API, calculators, the transfer process, I/O failures, the
    life-cycle flag) is read from an [Env] record, so that a step is an
    executable function of the program counter, the world and the answers.
    The interleaving of the threads is the relation [sys_step]. *)

From Stdlib Require Import ZArith Ascii String List Bool Lia.
From Stdlib Require Import Floats.SpecFloat.
From Stdlib Require DecimalString DecimalPos DecimalZ.
From stdpp Require Import gmap strings list.

Open Scope string_scope.
Open Scope list_scope.
Open Scope Z_scope.

(** ** Python values *)

(** IEEE 754 binary64, the representation of a Python [float]. *)
Definition float := spec_float.
Definition prec : Z := 53.
Definition emax : Z := 1024.
Definition float_add : float -> float -> float := SFadd prec emax.
Definition float_zero : float := S754_zero false.
Definition float_one : float := S754_finite false 4503599627370496 (-52).

(** The values stored in a payment item: [int], [float] or [str]. *)
Inductive pyval :=
| VInt (z : Z)
| VFloat (f : float)
| VStr (s : string).

(** [str(n)] for an [int]. *)
Definition py_str_int (z : Z) : string :=
  DecimalString.NilZero.string_of_int (Z.to_int z).

(** [s + v] for a [str] [s]: a [TypeError] ([None]) unless [v] is a
    [str] too. *)
Definition py_concat (s : string) (v : pyval) : option string :=
  match v with
  | VStr t => Some (s +:+ t)
  | _ => None
  end.

(** [v == 0]. *)
Definition py_eq_zero (v : pyval) : bool :=
  match v with
  | VInt z => z =? 0
  | VFloat f => SFeqb f float_zero
  | VStr _ => false
  end.

(** ** Module-level constants and the payment item *)

Definition BUF_SIZE : nat := 50.

Inductive RunMode := FOREVER | PENDING | ONETIME.

Definition RunMode_eqb (a b : RunMode) : bool :=
  match a, b with
  | FOREVER, FOREVER | PENDING, PENDING | ONETIME, ONETIME => true
  | _, _ => false
  end.

Definition EXIT_PAYMENT_TYPE : string := "exit".

(** The dictionary that travels through the queue.  [type] and [cycle]
    are a [str] and an [int] in every item of the source; the address is
    a [str] in a payment and the [int] 0 in the exit payment. *)
Record PaymentItem := mkItem {
  payment : pyval;
  fee : pyval;
  address : pyval;
  cycle : Z;
  type : string;
  ratio : pyval;
  reward : pyval
}.

(** ** Paths *)

Definition payment_dir_c (pymnt_dir pymnt_cycle : string) : string :=
  pymnt_dir +:+ "/" +:+ pymnt_cycle.

Definition payment_file_name (pymnt_dir pymnt_cycle : string)
    (pymnt_addr : pyval) (pymnt_type : string) : option string :=
  s ← py_concat (payment_dir_c pymnt_dir pymnt_cycle +:+ "/") pymnt_addr;
  Some (s +:+ "_" +:+ pymnt_type +:+ ".txt").

(** [s.rfind('/') + 1], on the reversed string: the characters before the
    last slash (slash included), still reversed. *)
Fixpoint drop_tail_rev (r : list ascii) : list ascii :=
  match r with
  | [] => []
  | c :: r' => if Ascii.eqb c "/"%char then r else drop_tail_rev r'
  end.

Fixpoint strip_slashes_rev (r : list ascii) : list ascii :=
  match r with
  | c :: r' => if Ascii.eqb c "/"%char then strip_slashes_rev r' else r
  | [] => []
  end.

(** [os.path.dirname] of [posixpath]. *)
Definition dirname (p : string) : string :=
  let head := drop_tail_rev (rev (list_ascii_of_string p)) in
  match strip_slashes_rev head with
  | [] => string_of_list_ascii (rev head)
  | stripped => string_of_list_ascii (rev stripped)
  end.

(** The directories [os.makedirs p] creates when it succeeds: [p] and the
    chain of its parents. *)
Fixpoint makedirs_chain (fuel : nat) (p : string) : list string :=
  match fuel with
  | O => [p]
  | S n =>
      let d := dirname p in
      if (String.eqb d "" || String.eqb d p)%bool then [p]
      else p :: makedirs_chain n d
  end.

(** ** The world shared by the threads *)

(** A cell of a report row: a value written as it is, or formatted with
    ["{0:f}"]. *)
Inductive Cell :=
| Raw (v : pyval)
| Fixed (v : pyval).

Definition Row := list Cell.

Inductive Level := DEBUG | INFO | WARNING | ERROR.

(** The command line [transfer_command.format(amount, key_name, address)]. *)
Record TransferCmd := mkCmd {
  cmd_template : string;
  cmd_amount : pyval;
  cmd_key : string;
  cmd_addr : pyval
}.

(** Log lines and calls of external collaborators, in the order they
    happen.  The producer's events carry its [payment_cycle] and, where it
    has read one in the iteration, its [current_cycle]. *)
Inductive Event :=
| Log (lvl : Level) (msg : string) (args : list pyval)
| FetchRewards (payment_cycle current_cycle : Z)
| CalcPayments (payment_cycle current_cycle : Z)
| OpenReport (payment_cycle current_cycle : Z) (path : string)
| QueuePut (payment_cycle current_cycle : Z) (item : PaymentItem)
| QueuePutExit (item : PaymentItem)
| QueueGet (item : PaymentItem)
| Popen (cmd : TransferCmd)
| WriteMarker (path : string).

Record World := mkWorld {
  files : gmap string (list Row);
  dirs : gset string;
  payments_queue : list PaymentItem;
  trace : list Event
}.

Definition emit (e : Event) (w : World) : World :=
  mkWorld (files w) (dirs w) (payments_queue w) (trace w ++ [e]).

Definition logger (lvl : Level) (msg : string) (args : list pyval) (w : World) : World :=
  emit (Log lvl msg args) w.

Definition isdir (w : World) (p : string) : bool := bool_decide (p ∈ dirs w).
Definition isfile (w : World) (p : string) : bool := bool_decide (is_Some (files w !! p)).
Definition exists_path (w : World) (p : string) : bool := (isdir w p || isfile w p)%bool.

Definition makedirs (p : string) (w : World) : World :=
  mkWorld (files w) (dirs w ∪ list_to_set (makedirs_chain (String.length p) p))
          (payments_queue w) (trace w).

(** [open(p, 'w')]: the file exists afterwards and is empty. *)
Definition open_w (p : string) (w : World) : World :=
  mkWorld (<[p := []]> (files w)) (dirs w) (payments_queue w) (trace w).

Definition writerow (p : string) (r : Row) (w : World) : World :=
  mkWorld (<[p := default [] (files w !! p) ++ [r]]> (files w)) (dirs w)
          (payments_queue w) (trace w).

Definition full (w : World) : bool := (BUF_SIZE <=? length (payments_queue w))%nat.

Definition put (item : PaymentItem) (w : World) : World :=
  mkWorld (files w) (dirs w) (payments_queue w ++ [item]) (trace w).

(** ** Answers of the collaborators that are not part of [main.py] *)

(** One record per step of a thread: what the collaborators answer to the
    calls made in that step.  [None] and [false] stand for a raised
    exception. *)
Record Env := mkEnv {
  (* lifeCycle.is_running() *)
  is_running : bool;
  (* block_api.get_current_cycle() *)
  get_current_cycle : option Z;
  (* block_api.get_current_level() and level_to_cycle of it *)
  get_current_level : option (Z * Z);
  (* os.makedirs(reports_dir) does not raise; in the executor, when
     lines 229-234 raise: os.makedirs of line 230 had completed, so the
     exception comes from creating the file *)
  makedirs_ok : bool;
  (* lines 89-93: the reward API and the reward calculator; the total *)
  get_total_rewards : option pyval;
  (* lines 102-104: PaymentCalculator(...).calculate() *)
  calculate_payments : option (list PaymentItem);
  (* open(report_file_path, 'w') does not raise *)
  open_ok : bool;
  (* the rows of the step are written without an exception (the two
     leading rows; lines 114-125 for a payment: fee rate, formatting,
     writerow); in the executor, lines 229-234 complete without one: the
     directory of the marker is there or is created, and the marker file
     is created *)
  write_ok : bool;
  (* leaving the with block (closing the report) does not raise *)
  close_ok : bool;
  (* line 213: transfer_command.format(...) does not raise (it raises on
     a template with more than three positional fields, a named field, a
     stray brace, or a conversion the argument does not support) *)
  format_ok : bool;
  (* subprocess.Popen does not raise *)
  popen_ok : bool;
  (* process.returncode after wait() *)
  returncode : Z
}.

Record NetworkConfig := mkNetwork {
  NAME : string;
  NB_FREEZE_CYCLE : Z;
  BLOCK_TIME_IN_SEC : Z;
  BLOCKS_PER_CYCLE : Z
}.

(** A share table: stakeholder address and share, in the order of the
    dictionary. *)
Definition ShareTable := list (string * float).

(** ** The scanner: [ProducerThread] *)

Module ProducerThread.

Record self := mk {
  baking_address : string;
  owners_map : ShareTable;
  founders_map : ShareTable;
  fee_calc : pyval -> pyval;            (* ServiceFeeCalculator.calculate *)
  initial_payment_cycle : Z;
  nw_config : NetworkConfig;
  payments_dir : string;
  reports_dir : string;
  run_mode : RunMode
}.

(** Why an exit payment is being put, which decides what follows the put:
    [return] (ONETIME), [break] out of the [while] (PENDING), [break] out
    of the waiting [for] (shutdown). *)
Inductive exit_reason :=
| ExitOnetime
| ExitPending
| ExitShutdown (payment_cycle : Z).

(** Control points of [run].  A step runs from one of them to the next
    point where the thread loops, may block ([put]) or sleeps in the
    waiting loop.  Inside the [for] over the payments the local
    [report_file_path] is [report_path] of the unchanged [payment_cycle]. *)
Inductive pc :=
| Start
| Loop (payment_cycle : Z)
| Items (payment_cycle current_cycle : Z) (rest : list PaymentItem)
| PutItem (payment_cycle current_cycle : Z) (payment_item : PaymentItem)
          (rest : list PaymentItem)
| PutExitPayment (why : exit_reason)
| Wait (payment_cycle : Z) (blocks : nat)
| Returned
| Crashed.

Definition create_exit_payment : PaymentItem :=
  mkItem (VInt 0) (VInt 0) (VInt 0) 0 EXIT_PAYMENT_TYPE (VInt 0) (VInt 0).

Definition freeze_bound (s : self) (current_cycle : Z) : Z :=
  current_cycle - (NB_FREEZE_CYCLE (nw_config s) + 1).

(** Lines 56-62. *)
Definition start (s : self) (env : Env) (w : World) : pc * World :=
  match get_current_cycle env with
  | None => (Crashed, w)
  | Some current_cycle =>
      if initial_payment_cycle s <=? 0
      then (Loop (current_cycle - Z.abs (initial_payment_cycle s)
                  - (NB_FREEZE_CYCLE (nw_config s) + 1)), w)
      else (Loop (initial_payment_cycle s), w)
  end.

(** The [except Exception] handler of line 147: the iteration ends and
    the loop goes on with the value [payment_cycle] has at that time. *)
Definition on_error (payment_cycle : Z) (w : World) : pc * World :=
  (Loop payment_cycle, logger ERROR "Error at reward calculation" [] w).

Definition report_path (s : self) (payment_cycle : Z) : string :=
  reports_dir s +:+ "/" +:+ py_str_int payment_cycle +:+ ".csv".

Definition header_row : Row :=
  map (fun c => Raw (VStr c))
      ["address"; "type"; "ratio"; "reward"; "fee_rate"; "payment"; "fee"].

Definition baker_row (s : self) (total_rewards : pyval) : Row :=
  [Raw (VStr (baking_address s)); Raw (VStr "B"); Raw (VFloat float_one);
   Raw total_rewards; Raw (VInt 0); Raw total_rewards; Raw (VInt 0)].

Definition item_row (s : self) (i : PaymentItem) : Row :=
  [Raw (address i); Raw (VStr (type i)); Fixed (ratio i); Fixed (reward i);
   Fixed (fee_calc s (address i)); Fixed (payment i); Fixed (fee i)].

(** Lines 87-111: the body of the [try] up to the [for] over the payments. *)
Definition process_cycle (s : self) (env : Env) (payment_cycle current_cycle : Z)
    (w : World) : pc * World :=
  let w := logger INFO "Payment cycle is " [VInt payment_cycle] w in
  let w := emit (FetchRewards payment_cycle current_cycle) w in
  match get_total_rewards env with
  | None => on_error payment_cycle w
  | Some total_rewards =>
      if py_eq_zero total_rewards
      then (Loop (payment_cycle + 1),
            logger INFO "Total rewards is zero skipping payment" [] w)
      else
        let w := logger INFO "Total rewards=" [total_rewards] w in
        let w := emit (CalcPayments payment_cycle current_cycle) w in
        match calculate_payments env with
        | None => on_error payment_cycle w
        | Some payments =>
            let report_file_path := report_path s payment_cycle in
            let w := emit (OpenReport payment_cycle current_cycle report_file_path) w in
            if negb (open_ok env) then on_error payment_cycle w
            else
              let w := open_w report_file_path w in
              if negb (write_ok env) then on_error payment_cycle w
              else
                let w := writerow report_file_path header_row w in
                let w := writerow report_file_path (baker_row s total_rewards) w in
                (Items payment_cycle current_cycle payments, w)
        end
  end.

(** Lines 66-175 up to the first loop point: one pass of the [while]
    body. *)
Definition scan (s : self) (env : Env) (payment_cycle : Z) (w : World) : pc * World :=
  match get_current_level env with
  | None => (Crashed, w)
  | Some (current_level, current_cycle) =>
      if isdir w (payment_dir_c (payments_dir s) (py_str_int payment_cycle))
      then (Loop (payment_cycle + 1),
            logger WARNING
              "Payment directory for cycle {} is present. No payment will be run for the cycle"
              [VInt payment_cycle] w)
      else
        let create := (negb (String.eqb (reports_dir s) "")
                       && negb (exists_path w (reports_dir s)))%bool in
        if (create && negb (makedirs_ok env))%bool then (Crashed, w)
        else
          let w := if create then makedirs (reports_dir s) w else w in
          if payment_cycle <=? freeze_bound s current_cycle
          then
            if negb (full w)
            then process_cycle s env payment_cycle current_cycle w
            else (Loop payment_cycle,
                  logger DEBUG "Wait a few minutes, queue is full" [] w)
          else
            if RunMode_eqb (run_mode s) PENDING
            then (PutExitPayment ExitPending,
                  logger INFO "Run mode PENDING satisfied. Killing the thread ..." [] w)
            else
              let nb_blocks_remaining :=
                (current_cycle + 1) * BLOCKS_PER_CYCLE (nw_config s) - current_level in
              (Wait payment_cycle (Z.to_nat nb_blocks_remaining),
               logger DEBUG "Wait until next cycle, for {} blocks"
                      [VInt nb_blocks_remaining] w)
  end.

(** Lines 114-132: one payment of the [for] loop, up to its [put]. *)
Definition process_item (s : self) (env : Env) (payment_cycle current_cycle : Z)
    (payment_item : PaymentItem) (rest : list PaymentItem) (w : World) : pc * World :=
  if negb (write_ok env) then on_error payment_cycle w
  else
    let w := writerow (report_path s payment_cycle) (item_row s payment_item) w in
    match payment_file_name (payments_dir s) (py_str_int payment_cycle)
                            (address payment_item) (type payment_item) with
    | None => on_error payment_cycle w
    | Some pymt_log =>
        if isfile w pymt_log
        then (Items payment_cycle current_cycle rest,
              logger WARNING
                "Reward not created for cycle %s address %s amount %f tz %s: Reason payment log already present"
                [VInt payment_cycle; address payment_item; payment payment_item;
                 VStr (type payment_item)] w)
        else (PutItem payment_cycle current_cycle payment_item rest, w)
    end.

(** Lines 134-136: the blocking [put] of a payment. *)
Definition put_item (payment_cycle current_cycle : Z) (payment_item : PaymentItem)
    (rest : list PaymentItem) (w : World) : option (pc * World) :=
  if full w then None
  else
    let w := put payment_item w in
    let w := emit (QueuePut payment_cycle current_cycle payment_item) w in
    Some (Items payment_cycle current_cycle rest,
          logger INFO
            "Reward created for cycle %s address %s amount %f fee %f tz type %s"
            [VInt payment_cycle; address payment_item; payment payment_item;
             fee payment_item; VStr (type payment_item)] w).

(** Lines 138-146: after the last payment. *)
Definition finish_cycle (s : self) (env : Env) (payment_cycle : Z) (w : World)
    : pc * World :=
  let w := logger INFO "Reward creation done for cycle %s" [VInt payment_cycle] w in
  let payment_cycle := payment_cycle + 1 in
  if negb (close_ok env) then on_error payment_cycle w
  else if RunMode_eqb (run_mode s) ONETIME
  then (PutExitPayment ExitOnetime,
        logger INFO "Run mode ONETIME satisfied. Killing the thread ..." [] w)
  else (Loop payment_cycle, w).

(** Lines 145, 160 and 174: the blocking [put] of the exit payment and
    what follows it. *)
Definition put_exit (why : exit_reason) (w : World) : option (pc * World) :=
  if full w then None
  else
    let w := emit (QueuePutExit create_exit_payment) (put create_exit_payment w) in
    match why with
    | ExitOnetime => Some (Returned, w)
    | ExitPending => Some (Returned, logger INFO "Producer returning ..." [] w)
    | ExitShutdown payment_cycle => Some (Loop payment_cycle, w)
    end.

(** One step of [run]; [None] when the thread has returned or is blocked
    on a full queue. *)
Definition run_step (s : self) (env : Env) (p : pc) (w : World) : option (pc * World) :=
  match p with
  | Start => Some (start s env w)
  | Loop payment_cycle =>
      if is_running env then Some (scan s env payment_cycle w)
      else Some (Returned, logger INFO "Producer returning ..." [] w)
  | Items payment_cycle current_cycle [] =>
      Some (finish_cycle s env payment_cycle w)
  | Items payment_cycle current_cycle (payment_item :: rest) =>
      Some (process_item s env payment_cycle current_cycle payment_item rest w)
  | PutItem payment_cycle current_cycle payment_item rest =>
      put_item payment_cycle current_cycle payment_item rest w
  | PutExitPayment why => put_exit why w
  | Wait payment_cycle O => Some (Loop payment_cycle, w)
  | Wait payment_cycle (S blocks) =>
      if is_running env then Some (Wait payment_cycle blocks, w)
      else Some (PutExitPayment (ExitShutdown payment_cycle), w)
  | Returned | Crashed => None
  end.

End ProducerThread.

(** ** The executor: [ConsumerThread] *)

Module ConsumerThread.

Record self := mk {
  name : string;
  payments_dir : string;
  key_name : string;
  transfer_command : string
}.

(** Control points of [run]: the [while] test, the blocking [get], the
    wait for the transfer process, and the end of the thread. *)
Inductive pc :=
| Loop
| Get
| Waiting (payment_item : PaymentItem)
| Returned.

(** The [except Exception] handler of line 240. *)
Definition on_error (w : World) : pc * World :=
  (Loop, logger ERROR "Error at reward payment" [] w).

(** Lines 202-222: take a payment from the queue and launch the transfer
    command, or leave the loop on an exit payment.  Building the command
    (line 213) and launching it (line 222) stand inside the [try]: when
    the first raises nothing has been logged yet, when the second raises
    the two debug lines have been. *)
Definition get (s : self) (env : Env) (w : World) : option (pc * World) :=
  match payments_queue w with
  | [] => None
  | payment_item :: q =>
      let w := emit (QueueGet payment_item) (mkWorld (files w) (dirs w) q (trace w)) in
      if String.eqb (type payment_item) EXIT_PAYMENT_TYPE
      then
        let w := logger DEBUG "Exit signal received. Killing the thread..." [] w in
        Some (Returned, logger INFO "Consumer returning ..." [] w)
      else if negb (format_ok env) then Some (on_error w)
      else
        let cmd := mkCmd (transfer_command s) (payment payment_item) (key_name s)
                         (address payment_item) in
        let w := logger DEBUG
                   "Reward payment attempt for cycle %s address %s amount %f tz type %s"
                   [VInt (cycle payment_item); address payment_item;
                    payment payment_item; VStr (type payment_item)] w in
        let w := logger DEBUG "Reward payment command '{}'" [] w in
        if negb (popen_ok env) then Some (on_error w)
        else Some (Waiting payment_item, emit (Popen cmd) w)
  end.

(** Lines 223-239: the transfer process has ended.  When creating the
    marker raises, the directory of line 230 may already have been
    created: it has been when the exception comes from line 233. *)
Definition finish (s : self) (env : Env) (payment_item : PaymentItem) (w : World)
    : pc * World :=
  if returncode env =? 0
  then
    match payment_file_name (payments_dir s) (py_str_int (cycle payment_item))
                            (address payment_item) (type payment_item) with
    | None => on_error w
    | Some pymt_log =>
        let w_dir := if negb (exists_path w (dirname pymt_log))
                     then makedirs (dirname pymt_log) w else w in
        if negb (write_ok env)
        then on_error (if makedirs_ok env then w_dir else w)
        else
          let w := emit (WriteMarker pymt_log) (open_w pymt_log w_dir) in
          (Loop, logger INFO "Reward paid for cycle %s address %s amount %f tz"
                        [VInt (cycle payment_item); address payment_item;
                         payment payment_item] w)
    end
  else
    (Loop, logger WARNING
             "Reward NOT paid for cycle %s address %s amount %f tz: Reason client failed!"
             [VInt (cycle payment_item); address payment_item; payment payment_item] w).

(** One step of [run]; [None] when the thread has returned or is blocked
    on an empty queue. *)
Definition run_step (s : self) (env : Env) (p : pc) (w : World) : option (pc * World) :=
  match p with
  | Loop =>
      if is_running env then Some (Get, w)
      else Some (Returned, logger INFO "Consumer returning ..." [] w)
  | Get => get s env w
  | Waiting payment_item => Some (finish s env payment_item w)
  | Returned => None
  end.

End ConsumerThread.

(** ** The threads together *)

Record Threads := mkThreads {
  the_producer : ProducerThread.self;
  the_consumers : list ConsumerThread.self
}.

Record System := mkSystem {
  producer : ProducerThread.pc;
  consumers : list ConsumerThread.pc;
  world : World
}.

(** Every thread at the start of its [run], an empty queue, nothing
    traced yet; the file system is whatever it is. *)
Definition initial (t : Threads) (fs : gmap string (list Row)) (ds : gset string) : System :=
  mkSystem ProducerThread.Start
           (map (fun _ => ConsumerThread.Loop) (the_consumers t))
           (mkWorld fs ds [] []).

(** One thread makes one step. *)
Inductive sys_step (t : Threads) : System -> System -> Prop :=
| step_producer env s p' w' :
    ProducerThread.run_step (the_producer t) env (producer s) (world s) = Some (p', w') ->
    sys_step t s (mkSystem p' (consumers s) w')
| step_consumer env s (i : nat) c p p' w' :
    the_consumers t !! i = Some c ->
    consumers s !! i = Some p ->
    ConsumerThread.run_step c env p (world s) = Some (p', w') ->
    sys_step t s (mkSystem (producer s) (<[i := p']> (consumers s)) w').

Inductive reachable (t : Threads) (fs : gmap string (list Row)) (ds : gset string)
  : System -> Prop :=
| reachable_initial : reachable t fs ds (initial t fs ds)
| reachable_step s s' :
    reachable t fs ds s -> sys_step t s s' -> reachable t fs ds s'.

(** ** Start-up: [validate_map_share_sum] and [main] *)

Inductive Exception :=
| KeyError (k : string)
| ValueError
| ShareSumError (msg : string) (map_name : string).

(** [sum(values)]: left to right, from the start value 0. *)
Definition py_sum (values : list float) : float :=
  fold_left float_add values float_zero.

(** The exception raised, if any. *)
Definition validate_map_share_sum (map : ShareTable) (map_name : string)
    : option Exception :=
  if negb (SFeqb (py_sum (List.map snd map)) float_one)
  then Some (ShareSumError "Map '{}' shares does not sum up to 1!" map_name)
  else None.

(** What [main] imports from the configuration modules, which are not
    part of [main.py]. *)
Record Configuration := mkConfiguration {
  BAKING_ADDRESS : string;
  supporters_set : gset string;
  founders_map : ShareTable;
  owners_map : ShareTable;
  specials_map : list (string * float);
  STANDARD_FEE : float;
  (* COMM_TRANSFER.replace("%network%", name.lower()) as a function of name *)
  COMM_TRANSFER : string -> string;
  network_config_map : list (string * NetworkConfig);
  (* ServiceFeeCalculator(supporters_set, specials_map, standard_fee).calculate *)
  ServiceFeeCalculator : gset string -> list (string * float) -> float -> pyval -> pyval
}.

Record Args := mkArgs {
  key : string;
  network : string;
  args_payments_dir : string;
  args_reports_dir : string;
  dry_run : bool;
  args_run_mode : Z;
  initial_cycle : option Z
}.

(** What [main] asks the operating system and the interpreter. *)
Record StartupEnv := mkStartupEnv {
  expanduser : string -> string;
  (* os.listdir(payments_dir), None when payments_dir is not a directory *)
  listdir_payments : option (list string);
  (* int(x), None for a ValueError *)
  py_int : string -> option Z
}.

(** [RunMode(n)]. *)
Definition RunMode_of (n : Z) : option RunMode :=
  if n =? 1 then Some FOREVER
  else if n =? 2 then Some PENDING
  else if n =? 3 then Some ONETIME
  else None.

Fixpoint assoc {A} (k : string) (l : list (string * A)) : option A :=
  match l with
  | [] => None
  | (k', v) :: l' => if String.eqb k k' then Some v else assoc k l'
  end.

(** Lines 286-293: the cycle to start from when [-C] is not given. *)
Definition resolve_initial_cycle (env : StartupEnv) (a : Args) : Exception + Z :=
  match initial_cycle a with
  | Some c => inr c
  | None =>
      match listdir_payments env with
      | None => inr 0
      | Some names =>
          match mapM (py_int env) names with
          | None => inl ValueError
          | Some [] => inr 0
          | Some (k :: ks) => inr (fold_left Z.max ks k + 1)
          end
      end
  end.

(** What [main] has done when it reaches its final sleep loop or raises. *)
Inductive Action :=
| LifeCycleStart (locking : bool)
| StartProducer (p : ProducerThread.self)
| StartConsumer (c : ConsumerThread.self).

Record Startup := mkStartup {
  actions : list Action;
  raised : option Exception
}.

Definition NB_CONSUMERS : nat := 1.

Definition main (cfg : Configuration) (env : StartupEnv) (a : Args) : Startup :=
  match assoc (network a) (network_config_map cfg) with
  | None => mkStartup [] (Some (KeyError (network a)))
  | Some network_config =>
      let payments_dir := expanduser env (args_payments_dir a) in
      let reports_dir := expanduser env (args_reports_dir a) in
      match RunMode_of (args_run_mode a) with
      | None => mkStartup [] (Some ValueError)
      | Some run_mode =>
          match validate_map_share_sum (founders_map cfg) "founders map" with
          | Some e => mkStartup [] (Some e)
          | None =>
              match validate_map_share_sum (owners_map cfg) "owners map" with
              | Some e => mkStartup [] (Some e)
              | None =>
                  let nb_consumers := if dry_run a then O else NB_CONSUMERS in
                  let reports_dir := if dry_run a then "./dry" else reports_dir in
                  let started := [LifeCycleStart (negb (dry_run a))] in
                  let full_supporters_set : gset string :=
                    supporters_set cfg ∪ list_to_set (List.map fst (founders_map cfg))
                                   ∪ list_to_set (List.map fst (owners_map cfg)) in
                  let service_fee_calc :=
                    ServiceFeeCalculator cfg full_supporters_set (specials_map cfg)
                                         (STANDARD_FEE cfg) in
                  match resolve_initial_cycle env a with
                  | inl e => mkStartup started (Some e)
                  | inr initial_cycle =>
                      let p := ProducerThread.mk (BAKING_ADDRESS cfg) (owners_map cfg)
                                 (founders_map cfg) service_fee_calc initial_cycle
                                 network_config payments_dir reports_dir run_mode in
                      let cs := List.map
                                  (fun i : nat =>
                                     ConsumerThread.mk
                                       ("consumer" +:+ py_str_int (Z.of_nat i))
                                       payments_dir (key a)
                                       (COMM_TRANSFER cfg (NAME network_config)))
                                  (seq 0 nb_consumers) in
                      mkStartup (started ++ [StartProducer p] ++ List.map StartConsumer cs)
                                None
                  end
              end
          end
      end
  end.

(** The threads [main] has started. *)
Definition started_producers (s : Startup) : list ProducerThread.self :=
  omap (fun x => match x with StartProducer p => Some p | _ => None end) (actions s).

Definition started_consumers (s : Startup) : list ConsumerThread.self :=
  omap (fun x => match x with StartConsumer c => Some c | _ => None end) (actions s).

(** ** Observations used in the statements *)

(** The events a step has added to the trace. *)
Definition emitted (w w' : World) : list Event :=
  drop (length (trace w)) (trace w').

(** The path of the Ledger Marker of the key (cycle, address, type). *)
Definition marker_path (pymnt_dir : string) (c : Z) (addr ty : string) : string :=
  pymnt_dir +:+ "/" +:+ py_str_int c +:+ "/" +:+ addr +:+ "_" +:+ ty +:+ ".txt".

Definition is_transfer (e : Event) : bool :=
  match e with Popen _ => true | _ => false end.

Definition is_marker_write (e : Event) : bool :=
  match e with WriteMarker _ => true | _ => false end.

Definition is_calc (e : Event) : bool :=
  match e with CalcPayments _ _ => true | _ => false end.

Definition is_open_report (e : Event) : bool :=
  match e with OpenReport _ _ _ => true | _ => false end.

Definition is_put (e : Event) : bool :=
  match e with QueuePut _ _ _ => true | _ => false end.

(** An event that is neither the launch of a transfer command nor the
    writing of a marker. *)
Definition no_payment_effect (e : Event) : Prop :=
  is_transfer e = false /\ is_marker_write e = false.

(** [payment_cycle <= current_cycle - (NB_FREEZE_CYCLE + 1)], the test of
    line 83. *)
Definition payable (s : ProducerThread.self) (payment_cycle current_cycle : Z) : Prop :=
  payment_cycle <= current_cycle - (NB_FREEZE_CYCLE (ProducerThread.nw_config s) + 1).

(** The events that process a cycle: fetching its rewards, calculating
    its payments, writing its report, enqueueing one of its payments. *)
Definition event_within_bound (s : ProducerThread.self) (e : Event) : Prop :=
  match e with
  | FetchRewards c cur | CalcPayments c cur | OpenReport c cur _ | QueuePut c cur _ =>
      payable s c cur
  | _ => True
  end.

(** The control points inside the processing of a cycle. *)
Definition pc_within_bound (s : ProducerThread.self) (p : ProducerThread.pc) : Prop :=
  match p with
  | ProducerThread.Items c cur _ | ProducerThread.PutItem c cur _ _ => payable s c cur
  | _ => True
  end.

(** The producer alone, one step per answer record; [None] if it blocks
    or has returned before the answers are used up. *)
Fixpoint run_producer (s : ProducerThread.self) (envs : list Env)
    (p : ProducerThread.pc) (w : World) : option (ProducerThread.pc * World) :=
  match envs with
  | [] => Some (p, w)
  | env :: envs' =>
      match ProducerThread.run_step s env p w with
      | Some (p', w') => run_producer s envs' p' w'
      | None => None
      end
  end.

(** The system after the producer alone has made one step per answer
    record, from the initial state. *)
Definition sys_after (t : Threads) (envs : list Env) (fs : gmap string (list Row))
    (ds : gset string) : option System :=
  match run_producer (the_producer t) envs ProducerThread.Start (mkWorld fs ds [] []) with
  | Some (p, w) => Some (mkSystem p (consumers (initial t fs ds)) w)
  | None => None
  end.

Definition float_sub : float -> float -> float := SFsub prec emax.

(** 2^-52, the distance from 1.0 to the next [float]. *)
Definition float_epsilon : float := S754_finite false 4503599627370496 (-104).

(** ** Concrete data for the examples *)

Module Ex.

Definition net : NetworkConfig := mkNetwork "ZERONET" 5 20 128.

Definition scanner (mode : RunMode) : ProducerThread.self :=
  ProducerThread.mk "tz1baker" [] [] (fun _ => VInt 0) 5 net "payments" "reports" mode.

Definition executor : ConsumerThread.self :=
  ConsumerThread.mk "consumer0" "payments" "mykey" "transfer {} from {} to {}".

Definition threads (mode : RunMode) : Threads := mkThreads (scanner mode) [executor].

Definition itemA : PaymentItem :=
  mkItem (VInt 600) (VInt 0) (VStr "addrA") 5 "D" (VFloat float_one) (VInt 600).

Definition itemB : PaymentItem :=
  mkItem (VInt 400) (VInt 0) (VStr "addrB") 5 "D" (VFloat float_one) (VInt 400).

Definition cmdA : TransferCmd :=
  mkCmd "transfer {} from {} to {}" (VInt 600) "mykey" (VStr "addrA").

(** Everything answers and succeeds: level 1500 in cycle 11, rewards
    1000, the payments [itemA; itemB], exit status [rc]. *)
Definition env (rc : Z) : Env :=
  mkEnv true (Some 11) (Some (1500, 11)) true (Some (VInt 1000))
        (Some [itemA; itemB]) true true true true true rc.

(** As [env 0], but writing a row raises. *)
Definition env_write_fails : Env :=
  mkEnv true (Some 11) (Some (1500, 11)) true (Some (VInt 1000))
        (Some [itemA; itemB]) true false true true true 0.

(** As [env 0], but opening the report raises. *)
Definition env_open_fails : Env :=
  mkEnv true (Some 11) (Some (1500, 11)) true (Some (VInt 1000))
        (Some [itemA; itemB]) false true true true true 0.

(** As [env 0], but the rewards of the cycle are zero. *)
Definition env_zero : Env :=
  mkEnv true (Some 11) (Some (1500, 11)) true (Some (VFloat float_zero))
        (Some [itemA; itemB]) true true true true true 0.

(** No file, no directory, an empty queue. *)
Definition w0 : World := mkWorld ∅ ∅ [] [].

(** The marker of (5, addrA, D) is present. *)
Definition w_markedA : World :=
  mkWorld {[ "payments/5/addrA_D.txt" := [] ]} {[ "payments"; "payments/5" ]} [] [].

(** The marker of (5, addrA, D) is present and the same payment is at the
    head of the queue. *)
Definition w_markedA_queued : World :=
  mkWorld (files w_markedA) (dirs w_markedA) [itemA] [].

(** The exit payment is at the head of the queue. *)
Definition w_exit_queued : World :=
  mkWorld ∅ ∅ [ProducerThread.create_exit_payment; itemA] [].

(** The reports directory and a directory named after cycle 5 in it are
    present; nothing exists under the payments directory. *)
Definition w_reports : World :=
  mkWorld ∅ {[ "reports"; "reports/5" ]} [] [].

(** The [float]s nearest to 0.57, 0.35 and 0.08. *)
Definition float_0_57 : float := S754_finite false 5134103575202365 (-53).
Definition float_0_35 : float := S754_finite false 6305039478318694 (-54).
Definition float_0_08 : float := S754_finite false 5764607523034235 (-56).

(** 0.9999999999999999, the [float] just below 1.0. *)
Definition float_below_one : float := S754_finite false 9007199254740991 (-53).

(** A share table written as {f1: 0.57, f2: 0.35, f3: 0.08}. *)
Definition shares : ShareTable :=
  [("f1", float_0_57); ("f2", float_0_35); ("f3", float_0_08)].

(** A share table with the single share 1.0. *)
Definition shares_one : ShareTable := [("o1", float_one)].

Definition cfg (founders : ShareTable) : Configuration :=
  mkConfiguration "tz1baker" ∅ founders shares_one [] float_zero
                  (fun _ => "transfer {} from {} to {}")
                  [("ZERONET", net)] (fun _ _ _ _ => VInt 0).

Definition startup_env : StartupEnv :=
  mkStartupEnv (fun p => p) None (fun _ => None).

Definition args (dry : bool) : Args :=
  mkArgs "mykey" "ZERONET" "payments" "reports" dry 1 (Some 5).

(** What [main] starts in the dry run of the example. *)
Definition dry_startup : Startup := main (cfg shares_one) startup_env (args true).

Definition dry_producer : ProducerThread.self :=
  ProducerThread.mk "tz1baker" shares_one shares_one (fun _ => VInt 0) 5 net
                    "payments" "./dry" FOREVER.

End Ex.

(** ** Observations of the queue and of the scanner's cycle *)

(** The items put on the queue, payments and exit payments, in the order
    of the puts. *)
Definition enqueued (tr : list Event) : list PaymentItem :=
  omap (fun e => match e with
                 | QueuePut _ _ i | QueuePutExit i => Some i
                 | _ => None
                 end) tr.

(** The items taken off the queue, in the order of the gets. *)
Definition dequeued (tr : list Event) : list PaymentItem :=
  omap (fun e => match e with QueueGet i => Some i | _ => None end) tr.

(** The value of the local [payment_cycle] at a control point of the
    scanner, where the thread still uses it. *)
Definition cycle_of (p : ProducerThread.pc) : option Z :=
  match p with
  | ProducerThread.Loop c | ProducerThread.Items c _ _
  | ProducerThread.PutItem c _ _ _ | ProducerThread.Wait c _
  | ProducerThread.PutExitPayment (ProducerThread.ExitShutdown c) => Some c
  | _ => None
  end.

(** Consumer [i] alone makes one step per answer record; [None] if there
    is no such consumer, or it blocks or has returned before the answers
    are used up. *)
Fixpoint consumer_steps (t : Threads) (i : nat) (envs : list Env) (st : System)
    : option System :=
  match envs with
  | [] => Some st
  | env :: envs' =>
      match the_consumers t !! i, consumers st !! i with
      | Some c, Some p =>
          match ConsumerThread.run_step c env p (world st) with
          | Some (p', w') =>
              consumer_steps t i envs'
                (mkSystem (producer st) (<[i := p']> (consumers st)) w')
          | None => None
          end
      | _, _ => None
      end
  end.

(** The producer makes its steps first, then consumer 0 makes its own. *)
Definition sys_after_both (t : Threads) (penvs cenvs : list Env)
    (fs : gmap string (list Row)) (ds : gset string) : option System :=
  match sys_after t penvs fs ds with
  | Some st => consumer_steps t 0 cenvs st
  | None => None
  end.

Definition is_fetch (e : Event) : bool :=
  match e with FetchRewards _ _ => true | _ => false end.

(** ** More concrete data *)

Module Ex2.

(** As [Ex.env 0], but fetching the rewards raises. *)
Definition env_fetch_fails : Env :=
  mkEnv true (Some 11) (Some (1500, 11)) true None None true true true true true 0.

(** As [Ex.env 0], but the life cycle has been stopped. *)
Definition env_stopped : Env :=
  mkEnv false (Some 11) (Some (1500, 11)) true (Some (VInt 1000))
        (Some [Ex.itemA; Ex.itemB]) true true true true true 0.

(** A queue holding [BUF_SIZE] copies of [Ex.itemA]. *)
Definition w_full : World := mkWorld ∅ ∅ (repeat Ex.itemA BUF_SIZE) [].

End Ex2.

(** ** The loop over the payments of a cycle, as a whole *)

(** The test of line 129 for a payment of cycle [c]: its marker file
    exists. *)
Definition marked (s : ProducerThread.self) (c : Z) (w : World) (i : PaymentItem) : bool :=
  match payment_file_name (ProducerThread.payments_dir s) (py_str_int c)
                          (address i) (type i) with
  | Some pymt_log => isfile w pymt_log
  | None => false
  end.

(** The steps the loop takes over a list of payments: one for a marked
    payment, two (the row and the test, then the [put]) for another. *)
Fixpoint loop_steps (s : ProducerThread.self) (c : Z) (w : World)
    (items : list PaymentItem) : nat :=
  match items with
  | [] => O
  | i :: rest => ((if marked s c w i then 1 else 2) + loop_steps s c w rest)%nat
  end.

Definition has_str_address (i : PaymentItem) : Prop :=
  exists a, address i = VStr a.

(** ** Characters of a path component *)

(** The character [ch] does not occur in [s]. *)
Definition no_char (ch : ascii) (s : string) : Prop :=
  ch ∉ list_ascii_of_string s.

(** ** Markers and the transfers behind them *)

(** The command an executor launches for a payment (line 213). *)
Definition transfer_cmd (c : ConsumerThread.self) (i : PaymentItem) : TransferCmd :=
  mkCmd (ConsumerThread.transfer_command c) (payment i) (ConsumerThread.key_name c)
        (address i).

(** In the trace [tr], executor [c] of [t] has taken the payment [i],
    which is not an exit payment, off the queue and has launched the
    transfer command for it. *)
Definition transfer_launched (t : Threads) (tr : list Event) (c : ConsumerThread.self)
    (i : PaymentItem) : Prop :=
  In c (the_consumers t)
  /\ type i <> EXIT_PAYMENT_TYPE
  /\ In (QueueGet i) tr
  /\ In (Popen (transfer_cmd c i)) tr.

(** The path [m] is the marker of a payment whose transfer was launched
    in [tr]. *)
Definition marker_justified (t : Threads) (tr : list Event) (m : string) : Prop :=
  exists c i,
    transfer_launched t tr c i
    /\ payment_file_name (ConsumerThread.payments_dir c) (py_str_int (cycle i))
                         (address i) (type i) = Some m.

(** Every marker write of the trace is justified by the events before
    it. *)
Inductive markers_justified (t : Threads) : list Event -> Prop :=
| markers_justified_nil : markers_justified t []
| markers_justified_snoc tr e :
    markers_justified t tr ->
    (forall m, e = WriteMarker m -> marker_justified t tr m) ->
    markers_justified t (tr ++ [e]).

(** Every executor that waits for a transfer process has launched it. *)
Definition waiting_justified (t : Threads) (st : System) : Prop :=
  forall n c i,
    the_consumers t !! n = Some c ->
    consumers st !! n = Some (ConsumerThread.Waiting i) ->
    transfer_launched t (trace (world st)) c i.

(** More data for the start-up examples. *)
Module Ex3.

(** [int] of the strings "3", "4" and "7"; a [ValueError] for the rest. *)
Definition py_int (s : string) : option Z :=
  if String.eqb s "3" then Some 3
  else if String.eqb s "4" then Some 4
  else if String.eqb s "7" then Some 7
  else None.


(** The payments directory also holds a file that is not a number. *)
Definition env_stray : StartupEnv :=
  mkStartupEnv (fun p => p) (Some ["4"; "notes.txt"]) py_int.

(** No [-C] on the command line. *)
Definition args_resume : Args :=
  mkArgs "mykey" "ZERONET" "payments" "reports" false 1 None.

(** A share table with a NaN in it. *)
Definition shares_nan : ShareTable := [("f1", float_one); ("f2", S754_nan)].

(** As [Ex.env 0], but closing the report raises. *)
Definition env_close_fails : Env :=
  mkEnv true (Some 11) (Some (1500, 11)) true (Some (VInt 1000))
        (Some [Ex.itemA; Ex.itemB]) true true false true true 0.

End Ex3.

Module Ex4.

(** A scanner started with [-C 0] in run mode PENDING. *)
Definition scanner0 : ProducerThread.self :=
  ProducerThread.mk "tz1baker" [] [] (fun _ => VInt 0) 0 Ex.net "payments" "reports"
                    PENDING.

End Ex4.

(** ** The definitions on concrete inputs *)

Example py_str_int_ex :
  py_str_int 5 = "5" /\ py_str_int 0 = "0" /\ py_str_int (-12) = "-12".
Proof. repeat split. Qed.

Example payment_file_name_ex :
  payment_file_name "payments" (py_str_int 5) (VStr "addrA") "D"
  = Some "payments/5/addrA_D.txt"
  /\ payment_file_name "payments" (py_str_int 0) (VInt 0) "exit" = None.
Proof. split; reflexivity. Qed.

Example dirname_ex :
  dirname "payments/5/addrA_D.txt" = "payments/5"
  /\ dirname "/a" = "/" /\ dirname "a" = "" /\ dirname "a//b" = "a".
Proof. repeat split. Qed.

Example makedirs_chain_ex :
  makedirs_chain 12 "./payments/5" = ["./payments/5"; "./payments"; "."].
Proof. reflexivity. Qed.

(** 0.57 + 0.35 + 0.08 in binary64, left to right. *)
Example py_sum_ex :
  py_sum [Ex.float_0_57; Ex.float_0_35; Ex.float_0_08] = Ex.float_below_one
  /\ py_sum [float_one] = float_one.
Proof. split; vm_compute; reflexivity. Qed.

(** With the marker of addrA present when the loop over [itemA; itemB]
    is entered, the loop ends with [itemB] alone in the queue. *)
Example marked_item_skipped_ex :
  exists w',
    run_producer (Ex.scanner FOREVER) (repeat (Ex.env 0) 3)
      (ProducerThread.Items 5 11 [Ex.itemA; Ex.itemB]) Ex.w_markedA
    = Some (ProducerThread.Items 5 11 [], w')
    /\ payments_queue w' = [Ex.itemB].
Proof. eexists. split; [vm_compute; reflexivity | reflexivity]. Qed.

(** ONETIME from the start: two payments and the exit payment are in the
    queue when the producer has returned. *)
Example onetime_run_ex :
  exists w',
    run_producer (Ex.scanner ONETIME) (repeat (Ex.env 0) 8) ProducerThread.Start Ex.w0
    = Some (ProducerThread.Returned, w')
    /\ payments_queue w' = [Ex.itemA; Ex.itemB; ProducerThread.create_exit_payment].
Proof. eexists. split; [vm_compute; reflexivity | reflexivity]. Qed.

(** ** Paths of reports and of markers never coincide *)

Lemma append_cons (x : ascii) (a b : string) : String x a +:+ b = String x (a +:+ b).
Proof. reflexivity. Qed.

Lemma list_ascii_of_string_app (a b : string) :
  list_ascii_of_string (a +:+ b) = list_ascii_of_string a ++ list_ascii_of_string b.
Proof.
  induction a as [|c a IH]; [reflexivity|].
  rewrite append_cons. simpl. now rewrite IH.
Qed.

Lemma txt_is_not_csv (a b : string) : a +:+ ".txt" <> b +:+ ".csv".
Proof.
  intros H. apply (f_equal list_ascii_of_string) in H.
  rewrite !list_ascii_of_string_app in H.
  apply app_inj_2 in H; [|reflexivity].
  destruct H as [_ H]. discriminate H.
Qed.

Lemma string_app_assoc (a b c : string) : (a +:+ b) +:+ c = a +:+ (b +:+ c).
Proof.
  induction a as [|x a IH]; [reflexivity|].
  rewrite !append_cons. now rewrite IH.
Qed.

Lemma marker_path_eq (d : string) (c : Z) (a ty : string) :
  payment_file_name d (py_str_int c) (VStr a) ty = Some (marker_path d c a ty).
Proof.
  unfold payment_file_name, payment_dir_c, marker_path. simpl.
  now rewrite !string_app_assoc.
Qed.

Lemma marker_is_not_report (s : ProducerThread.self) (d cyc : string) (a : pyval)
    (ty m : string) (c : Z) :
  payment_file_name d cyc a ty = Some m -> m <> ProducerThread.report_path s c.
Proof.
  unfold payment_file_name, ProducerThread.report_path.
  destruct a as [z|f|a]; simpl; try discriminate.
  intros [= <-]. rewrite <- !string_app_assoc. apply txt_is_not_csv.
Qed.

Lemma isfile_writerow_ne (w : World) (p q : string) (r : Row) :
  p <> q -> isfile (writerow p r w) q = isfile w q.
Proof.
  intros Hne. unfold isfile, writerow. simpl. now rewrite lookup_insert_ne.
Qed.

Lemma emitted_app (w w' : World) (es : list Event) :
  trace w' = trace w ++ es -> emitted w w' = es.
Proof.
  intros H. unfold emitted. rewrite H. now rewrite drop_app_length.
Qed.

(** ** The scanner's handling of one payment *)

(** C1, as the claim states it, fails: the marker of (5, addrA, D) exists
    before the scanner comes to cycle 5, in the directory of the cycle,
    and the calculator of payments would answer [itemA; itemB], whose
    second payment has no marker.  From its start the scanner finds the
    directory of cycle 5 and goes on to cycle 6: the only thing that
    happens is the warning of line 73, and neither payment is put on the
    queue. *)
Lemma C1_counterexample :
  isfile Ex.w_markedA (marker_path "payments" 5 "addrA" "D") = true
  /\ isfile Ex.w_markedA (marker_path "payments" 5 "addrB" "D") = false
  /\ isdir Ex.w_markedA (payment_dir_c "payments" (py_str_int 5)) = true
  /\ calculate_payments (Ex.env 0) = Some [Ex.itemA; Ex.itemB]
  /\ exists w',
       run_producer (Ex.scanner FOREVER) [Ex.env 0; Ex.env 0] ProducerThread.Start
         Ex.w_markedA
       = Some (ProducerThread.Loop 6, w')
       /\ payments_queue w' = []
       /\ trace w'
          = [Log WARNING
               "Payment directory for cycle {} is present. No payment will be run for the cycle"
               [VInt 5]].
Proof.
  split; [vm_compute; reflexivity|]. split; [vm_compute; reflexivity|].
  split; [vm_compute; reflexivity|]. split; [reflexivity|].
  eexists. split; [vm_compute; reflexivity|].
  split; reflexivity.
Qed.

(** C1, amended.  The marker is looked at per payment only inside the
    [for] loop of a cycle, and that loop is entered only by a pass that
    did not find the directory <payments_dir>/<cycle> (line 72), with the
    payments the calculator answered.  A pass that finds the directory,
    which is where the markers of the cycle lie, logs the warning and goes
    on to the next cycle: nothing of the cycle is put on the queue, marked
    or not.  For a payment the loop does come to, whose row is written
    without an exception: the scanner goes on to the [put] of the payment
    exactly when no marker file of its key (cycle, address, type) exists
    at the test of line 129, which stands before the blocking [put].  With
    the marker present it logs the warning, leaves the queue as it is and
    continues with the remaining payments; without it, the pending [put]
    appends the payment to the queue as soon as the queue has room,
    whatever files exist by then, and the loop continues with the
    remaining payments. *)
Theorem C1_enqueue_iff_unmarked (s : ProducerThread.self) (env : Env) (c cur : Z)
    (item : PaymentItem) (rest : list PaymentItem) (w : World) (a : string) :
  address item = VStr a ->
  write_ok env = true ->
  let marker := marker_path (ProducerThread.payments_dir s) c a (type item) in
  let cycle_dir := payment_dir_c (ProducerThread.payments_dir s) (py_str_int c) in
  (forall env0 lvl cur0 w0,
     is_running env0 = true ->
     get_current_level env0 = Some (lvl, cur0) ->
     isdir w0 cycle_dir = true ->
     exists w1,
       ProducerThread.run_step s env0 (ProducerThread.Loop c) w0
       = Some (ProducerThread.Loop (c + 1), w1)
       /\ payments_queue w1 = payments_queue w0
       /\ files w1 = files w0
       /\ emitted w0 w1
          = [Log WARNING
               "Payment directory for cycle {} is present. No payment will be run for the cycle"
               [VInt c]])
  /\ (forall env0 c0 cur0 items w0 w1,
        ProducerThread.run_step s env0 (ProducerThread.Loop c0) w0
        = Some (ProducerThread.Items c cur0 items, w1) ->
        c0 = c
        /\ isdir w0 cycle_dir = false
        /\ calculate_payments env0 = Some items
        /\ payments_queue w1 = payments_queue w0)
  /\ exists w',
       ProducerThread.run_step s env (ProducerThread.Items c cur (item :: rest)) w
       = Some (if isfile w marker
               then ProducerThread.Items c cur rest
               else ProducerThread.PutItem c cur item rest, w')
       /\ payments_queue w' = payments_queue w
       /\ emitted w w'
          = (if isfile w marker
             then [Log WARNING
                     "Reward not created for cycle %s address %s amount %f tz %s: Reason payment log already present"
                     [VInt c; VStr a; payment item; VStr (type item)]]
             else [])
       /\ forall env2 w2,
            full w2 = false ->
            exists w3,
              ProducerThread.run_step s env2 (ProducerThread.PutItem c cur item rest) w2
              = Some (ProducerThread.Items c cur rest, w3)
              /\ payments_queue w3 = payments_queue w2 ++ [item]
              /\ files w3 = files w2.
Proof.
  intros Haddr Hok marker cycle_dir.
  split; [|split].
  { intros env0 lvl cur0 w0 Hrun Hlvl Hdir.
    cbn [ProducerThread.run_step]. unfold ProducerThread.scan.
    fold cycle_dir. rewrite Hrun, Hlvl, Hdir.
    eexists. split; [reflexivity|]. split; [reflexivity|]. split; [reflexivity|].
    apply emitted_app. reflexivity. }
  { intros env0 c0 cur0 items w0 w1 Hstep.
    cbn [ProducerThread.run_step] in Hstep.
    unfold ProducerThread.scan, ProducerThread.process_cycle, ProducerThread.on_error
      in Hstep.
    unfold cycle_dir.
    repeat case_match; simplify_eq.
    all: split; [reflexivity|]; split; [assumption|]; split; reflexivity. }
  assert (Hm : payment_file_name (ProducerThread.payments_dir s) (py_str_int c)
                 (address item) (type item) = Some marker).
  { rewrite Haddr. apply marker_path_eq. }
  assert (Hfile : isfile (writerow (ProducerThread.report_path s c)
                            (ProducerThread.item_row s item) w) marker
                  = isfile w marker).
  { apply isfile_writerow_ne. intros Heq. symmetry in Heq. revert Heq.
    eapply marker_is_not_report. exact Hm. }
  cbn [ProducerThread.run_step]. unfold ProducerThread.process_item.
  rewrite Hok, Hm. cbn [negb]. rewrite Hfile.
  destruct (isfile w marker) eqn:Hmark.
  - eexists. split; [reflexivity|]. split; [reflexivity|]. split.
    + rewrite Haddr. apply emitted_app. reflexivity.
    + intros env2 w2 Hroom. cbn [ProducerThread.run_step].
      unfold ProducerThread.put_item. rewrite Hroom.
      eexists. split; [reflexivity|]. split; reflexivity.
  - eexists. split; [reflexivity|]. split; [reflexivity|]. split.
    + apply emitted_app. cbn. now rewrite app_nil_r.
    + intros env2 w2 Hroom. cbn [ProducerThread.run_step].
      unfold ProducerThread.put_item. rewrite Hroom.
      eexists. split; [reflexivity|]. split; reflexivity.
Qed.

Lemma C1_witness :
  address Ex.itemA = VStr "addrA"
  /\ write_ok (Ex.env 0) = true
  /\ isfile Ex.w_markedA (marker_path "payments" 5 "addrA" "D") = true
  /\ (exists w1,
        ProducerThread.run_step (Ex.scanner FOREVER) (Ex.env 0) (ProducerThread.Loop 5)
          Ex.w_markedA
        = Some (ProducerThread.Loop 6, w1)
        /\ payments_queue w1 = [])
  /\ (exists w',
        ProducerThread.run_step (Ex.scanner FOREVER) (Ex.env 0)
          (ProducerThread.Items 5 11 [Ex.itemA; Ex.itemB]) Ex.w_markedA
        = Some (ProducerThread.Items 5 11 [Ex.itemB], w')
        /\ payments_queue w' = [])
  /\ (exists w3,
        ProducerThread.run_step (Ex.scanner FOREVER) (Ex.env 0)
          (ProducerThread.PutItem 5 11 Ex.itemA [Ex.itemB]) Ex.w_markedA
        = Some (ProducerThread.Items 5 11 [Ex.itemB], w3)
        /\ payments_queue w3 = [Ex.itemA]).
Proof.
  split; [reflexivity|]. split; [reflexivity|]. split; [vm_compute; reflexivity|].
  destruct (C1_enqueue_iff_unmarked (Ex.scanner FOREVER) (Ex.env 0) 5 11 Ex.itemA
              [Ex.itemB] Ex.w_markedA "addrA" eq_refl eq_refl)
    as (Hskip & _ & w' & Hstep & Hq & _ & Hput).
  split; [|split].
  - destruct (Hskip (Ex.env 0) 1500 11 Ex.w_markedA eq_refl eq_refl
                ltac:(vm_compute; reflexivity)) as (w1 & Hs1 & Hq1 & _).
    exists w1. split; [exact Hs1 | exact Hq1].
  - exists w'. split; [exact Hstep | exact Hq].
  - destruct (Hput (Ex.env 0) Ex.w_markedA eq_refl) as (w3 & Hs3 & Hq3 & _).
    exists w3. split; [exact Hs3 | exact Hq3].
Defined.

(** ** The executor after the transfer process has ended *)

(** C2.  For a dequeued payment whose transfer process has ended: the
    executor is back at the head of its loop with the queue untouched, so
    the next payments are processed.  If the exit status is zero (and
    creating the file does not raise) the marker file
    <payments_dir>/<cycle>/<address>_<type>.txt exists afterwards and the
    write is traced; if the exit status is not zero the files and
    directories are unchanged and the only thing that happens is the
    warning.  A marker is written in this step only if the exit status is
    zero, and only at that path. *)
Theorem C2_marker_iff_exit_zero (s : ConsumerThread.self) (env : Env)
    (item : PaymentItem) (w : World) (a : string) :
  address item = VStr a ->
  let marker := marker_path (ConsumerThread.payments_dir s) (cycle item) a (type item) in
  exists w',
    ConsumerThread.run_step s env (ConsumerThread.Waiting item) w
    = Some (ConsumerThread.Loop, w')
    /\ payments_queue w' = payments_queue w
    /\ (returncode env = 0 -> write_ok env = true ->
        isfile w' marker = true
        /\ files w' = <[marker := []]> (files w)
        /\ In (WriteMarker marker) (emitted w w'))
    /\ (returncode env <> 0 ->
        files w' = files w /\ dirs w' = dirs w
        /\ emitted w w'
           = [Log WARNING
                "Reward NOT paid for cycle %s address %s amount %f tz: Reason client failed!"
                [VInt (cycle item); VStr a; payment item]])
    /\ (forall p, In (WriteMarker p) (emitted w w') ->
        returncode env = 0 /\ p = marker).
Proof.
  intros Haddr marker.
  cbn [ConsumerThread.run_step]. unfold ConsumerThread.finish.
  rewrite Haddr, marker_path_eq. fold marker.
  destruct (returncode env =? 0) eqn:Hrc.
  - apply Z.eqb_eq in Hrc.
    destruct (write_ok env) eqn:Hok; cbn [negb].
    + eexists. split; [reflexivity|]. split.
      { destruct (negb (exists_path w (dirname marker))); reflexivity. }
      assert (Hem : emitted w
                      (logger INFO "Reward paid for cycle %s address %s amount %f tz"
                         [VInt (cycle item); VStr a; payment item]
                         (emit (WriteMarker marker)
                            (open_w marker
                               (if negb (exists_path w (dirname marker))
                                then makedirs (dirname marker) w else w))))
                    = [WriteMarker marker;
                       Log INFO "Reward paid for cycle %s address %s amount %f tz"
                           [VInt (cycle item); VStr a; payment item]]).
      { apply emitted_app. cbn.
        destruct (negb (exists_path w (dirname marker))); cbn;
          now rewrite <- app_assoc. }
      split; [|split].
      * intros _ _. split; [|split].
        -- unfold logger, emit, isfile. cbn. rewrite lookup_insert_eq.
           apply bool_decide_eq_true. eauto.
        -- destruct (negb (exists_path w (dirname marker))); reflexivity.
        -- rewrite Hem. left. reflexivity.
      * intros Hne. contradiction.
      * intros p Hin. rewrite Hem in Hin.
        destruct Hin as [[= <-]|[Hin|[]]]; [now split | discriminate Hin].
    + set (w1 := if makedirs_ok env
                 then if negb (exists_path w (dirname marker))
                      then makedirs (dirname marker) w else w
                 else w).
      assert (Hq : payments_queue w1 = payments_queue w).
      { unfold w1. destruct (makedirs_ok env); [|reflexivity].
        destruct (negb (exists_path w (dirname marker))); reflexivity. }
      assert (Ht : trace w1 = trace w).
      { unfold w1. destruct (makedirs_ok env); [|reflexivity].
        destruct (negb (exists_path w (dirname marker))); reflexivity. }
      eexists. split; [reflexivity|]. split; [exact Hq|].
      assert (Hem : emitted w (logger ERROR "Error at reward payment" [] w1)
                    = [Log ERROR "Error at reward payment" []]).
      { apply emitted_app. cbn. now rewrite Ht. }
      split; [|split].
      * intros _ Hf. discriminate Hf.
      * intros Hne. contradiction.
      * intros p Hin. cbn [ConsumerThread.on_error snd] in Hin.
        rewrite Hem in Hin. destruct Hin as [Hin|[]]. discriminate Hin.
  - apply Z.eqb_neq in Hrc.
    eexists. split; [reflexivity|]. split; [reflexivity|].
    assert (Hem : emitted w
                    (logger WARNING
                       "Reward NOT paid for cycle %s address %s amount %f tz: Reason client failed!"
                       [VInt (cycle item); VStr a; payment item] w)
                  = [Log WARNING
                       "Reward NOT paid for cycle %s address %s amount %f tz: Reason client failed!"
                       [VInt (cycle item); VStr a; payment item]]).
    { apply emitted_app. reflexivity. }
    split; [|split].
    + intros Hz. contradiction.
    + intros _. split; [reflexivity|]. split; [reflexivity|]. exact Hem.
    + intros p Hin. rewrite Hem in Hin. destruct Hin as [Hin|[]]. discriminate Hin.
Qed.

Lemma C2_witness :
  address Ex.itemB = VStr "addrB"
  /\ exists w',
       ConsumerThread.run_step Ex.executor (Ex.env 1) (ConsumerThread.Waiting Ex.itemB) Ex.w0
       = Some (ConsumerThread.Loop, w')
       /\ files w' = files Ex.w0
       /\ isfile w' "payments/5/addrB_D.txt" = false.
Proof.
  split; [reflexivity|].
  destruct (C2_marker_iff_exit_zero Ex.executor (Ex.env 1) Ex.itemB Ex.w0 "addrB" eq_refl)
    as (w' & Hstep & _ & _ & Hfail & _).
  exists w'. split; [exact Hstep|].
  destruct (Hfail ltac:(discriminate)) as (Hfiles & _ & _).
  split; [exact Hfiles|].
  unfold isfile. rewrite Hfiles. vm_compute. reflexivity.
Defined.

(** ** The payable boundary is respected in every reachable state *)

Lemma Forall_emit (P : Event -> Prop) (e : Event) (w : World) :
  Forall P (trace w) -> P e -> Forall P (trace (emit e w)).
Proof.
  intros Hw He. unfold emit. cbn. apply Forall_app. split; [exact Hw|].
  constructor; [exact He | constructor].
Qed.

Lemma Forall_logger (P : Event -> Prop) lvl msg args (w : World) :
  Forall P (trace w) -> P (Log lvl msg args) -> Forall P (trace (logger lvl msg args w)).
Proof. apply Forall_emit. Qed.

Ltac trace_forall :=
  repeat first
    [ assumption
    | exact I
    | apply Forall_logger
    | apply Forall_emit
    | progress cbn [trace put writerow open_w makedirs] ].

Lemma producer_step_within_bound (s : ProducerThread.self) (env : Env)
    (p p' : ProducerThread.pc) (w w' : World) :
  pc_within_bound s p ->
  Forall (event_within_bound s) (trace w) ->
  ProducerThread.run_step s env p w = Some (p', w') ->
  pc_within_bound s p' /\ Forall (event_within_bound s) (trace w').
Proof.
  intros Hp Hw Hstep.
  destruct p as [|c|c cur [|item rest]|c cur item rest|why|c [|n]| |];
    cbn [ProducerThread.run_step] in Hstep.
  - unfold ProducerThread.start in Hstep.
    repeat case_match; simplify_eq; split; trace_forall.
  - unfold ProducerThread.scan, ProducerThread.process_cycle,
      ProducerThread.on_error in Hstep.
    repeat case_match; simplify_eq; split;
      try match goal with
          | H : (_ <=? ProducerThread.freeze_bound _ _) = true |- _ =>
              apply Z.leb_le in H; unfold ProducerThread.freeze_bound in H
          end;
      trace_forall.
  - unfold ProducerThread.finish_cycle, ProducerThread.on_error in Hstep.
    repeat case_match; simplify_eq; split; trace_forall.
  - unfold ProducerThread.process_item, ProducerThread.on_error in Hstep.
    repeat case_match; simplify_eq; split; trace_forall.
  - unfold ProducerThread.put_item in Hstep.
    repeat case_match; simplify_eq; split; trace_forall.
  - unfold ProducerThread.put_exit in Hstep.
    repeat case_match; simplify_eq; split; trace_forall.
  - simplify_eq. split; trace_forall.
  - repeat case_match; simplify_eq; split; trace_forall.
  - discriminate.
  - discriminate.
Qed.

Lemma consumer_step_within_bound (s : ProducerThread.self) (c : ConsumerThread.self)
    (env : Env) (p p' : ConsumerThread.pc) (w w' : World) :
  Forall (event_within_bound s) (trace w) ->
  ConsumerThread.run_step c env p w = Some (p', w') ->
  Forall (event_within_bound s) (trace w').
Proof.
  intros Hw Hstep.
  destruct p as [| |item|]; cbn [ConsumerThread.run_step] in Hstep.
  - repeat case_match; simplify_eq; trace_forall.
  - unfold ConsumerThread.get, ConsumerThread.on_error in Hstep.
    repeat case_match; simplify_eq; trace_forall.
  - unfold ConsumerThread.finish, ConsumerThread.on_error in Hstep.
    repeat case_match; simplify_eq; trace_forall.
  - discriminate.
Qed.

(** C3.  In every state the threads can reach, the scanner is inside the
    processing of a cycle (the loop over its payments, a pending [put] of
    one of them) only with [payment_cycle <= current_cycle -
    (NB_FREEZE_CYCLE + 1)], where [current_cycle] is the cycle it read in
    that iteration; and every reward fetch, payment calculation, report
    and enqueued payment in the trace was made under that bound. *)
Theorem C3_only_payable_cycles_processed (t : Threads) (fs : gmap string (list Row))
    (ds : gset string) (st : System) :
  reachable t fs ds st ->
  pc_within_bound (the_producer t) (producer st)
  /\ Forall (event_within_bound (the_producer t)) (trace (world st)).
Proof.
  induction 1 as [|st st' Hreach [IHp IHw] Hstep].
  - split; [exact I | constructor].
  - destruct Hstep as [env st p' w' Hrun | env st i c p p' w' Hc Hp Hrun]; cbn.
    + eapply producer_step_within_bound; eauto.
    + split; [exact IHp|]. eapply consumer_step_within_bound; eauto.
Qed.

Lemma reachable_run_producer (t : Threads) fs ds (envs : list Env) :
  forall st p' w',
    reachable t fs ds st ->
    run_producer (the_producer t) envs (producer st) (world st) = Some (p', w') ->
    reachable t fs ds (mkSystem p' (consumers st) w').
Proof.
  induction envs as [|env envs IH]; intros st p' w' Hst Hrun; cbn in Hrun.
  - destruct st as [p cs w]. cbn in Hrun. now simplify_eq.
  - destruct (ProducerThread.run_step (the_producer t) env (producer st) (world st))
      as [[p1 w1]|] eqn:Hstep; [|discriminate].
    apply (IH (mkSystem p1 (consumers st) w1) p' w'); [|exact Hrun].
    eapply reachable_step; [exact Hst|]. eapply step_producer. exact Hstep.
Qed.

Lemma reachable_sys_after (t : Threads) fs ds (envs : list Env) (st : System) :
  sys_after t envs fs ds = Some st -> reachable t fs ds st.
Proof.
  unfold sys_after. intros H.
  destruct (run_producer (the_producer t) envs ProducerThread.Start (mkWorld fs ds [] []))
    as [[p w]|] eqn:Hrun; [|discriminate].
  injection H as <-.
  apply (reachable_run_producer t fs ds envs (initial t fs ds) p w);
    [apply reachable_initial | exact Hrun].
Qed.

Lemma C3_witness :
  exists st,
    reachable (Ex.threads FOREVER) ∅ ∅ st
    /\ producer st = ProducerThread.PutItem 5 11 Ex.itemA [Ex.itemB]
    /\ pc_within_bound (Ex.scanner FOREVER) (producer st)
    /\ Forall (event_within_bound (Ex.scanner FOREVER)) (trace (world st)).
Proof.
  destruct (sys_after (Ex.threads FOREVER) (repeat (Ex.env 0) 3) ∅ ∅) as [st|] eqn:Hst;
    [|vm_compute in Hst; discriminate Hst].
  exists st.
  pose proof (reachable_sys_after _ _ _ _ _ Hst) as Hreach.
  split; [exact Hreach|]. split.
  - vm_compute in Hst. injection Hst as <-. reflexivity.
  - exact (C3_only_payable_cycles_processed (Ex.threads FOREVER) ∅ ∅ st Hreach).
Defined.

(** ** The executor taking a payment from the queue *)

(** C4, as the claim states it, fails: with the marker of (5, addrA, D)
    present and that payment at the head of the queue, the executor
    launches the transfer command for it. *)
Lemma C4_counterexample :
  isfile Ex.w_markedA_queued (marker_path "payments" 5 "addrA" "D") = true
  /\ exists w',
       ConsumerThread.run_step Ex.executor (Ex.env 0) ConsumerThread.Get Ex.w_markedA_queued
       = Some (ConsumerThread.Waiting Ex.itemA, w')
       /\ In (Popen Ex.cmdA) (trace w').
Proof.
  split; [vm_compute; reflexivity|].
  eexists. split; [reflexivity|].
  cbn. right. right. right. left. reflexivity.
Qed.

(** C4, amended.  For every dequeued payment that is not the exit payment
    the executor goes for the transfer without looking at the Ledger
    Marker: whatever files exist, the step from the blocking [get] takes
    the payment off the queue and touches no file or directory.  When
    building the command (line 213) and starting the process (line 222)
    raise no exception, it logs the attempt and the command, starts the
    process and waits for it.  When building the command raises, the
    error is logged, nothing else is, and no process is started; when
    starting the process raises, the error is logged after the two debug
    lines; in both cases the payment is dropped and the executor is back
    at the head of its loop.  The marker is consulted only by the
    scanner, in the check that precedes the [put]. *)
Theorem C4_transfer_without_marker_check (s : ConsumerThread.self) (env : Env)
    (item : PaymentItem) (q : list PaymentItem) (w : World) :
  payments_queue w = item :: q ->
  type item <> EXIT_PAYMENT_TYPE ->
  let attempt :=
    [Log DEBUG "Reward payment attempt for cycle %s address %s amount %f tz type %s"
         [VInt (cycle item); address item; payment item; VStr (type item)];
     Log DEBUG "Reward payment command '{}'" []] in
  let failure := Log ERROR "Error at reward payment" [] in
  let launch := Popen (mkCmd (ConsumerThread.transfer_command s) (payment item)
                             (ConsumerThread.key_name s) (address item)) in
  exists w',
    ConsumerThread.run_step s env ConsumerThread.Get w
    = Some (if (format_ok env && popen_ok env)%bool
            then ConsumerThread.Waiting item
            else ConsumerThread.Loop, w')
    /\ payments_queue w' = q
    /\ files w' = files w
    /\ dirs w' = dirs w
    /\ emitted w w'
       = QueueGet item
         :: (if negb (format_ok env) then [failure]
             else attempt ++ [if popen_ok env then launch else failure]).
Proof.
  intros Hq Hty attempt failure launch.
  cbn [ConsumerThread.run_step]. unfold ConsumerThread.get.
  rewrite Hq. apply String.eqb_neq in Hty. rewrite Hty.
  destruct (format_ok env); cbn [negb andb].
  - destruct (popen_ok env); cbn [negb].
    + eexists. split; [reflexivity|].
      split; [reflexivity|]. split; [reflexivity|]. split; [reflexivity|].
      apply emitted_app. cbn. now rewrite <- !app_assoc.
    + eexists. split; [reflexivity|].
      split; [reflexivity|]. split; [reflexivity|]. split; [reflexivity|].
      apply emitted_app. cbn. now rewrite <- !app_assoc.
  - eexists. split; [reflexivity|].
    split; [reflexivity|]. split; [reflexivity|]. split; [reflexivity|].
    apply emitted_app. cbn. now rewrite <- !app_assoc.
Qed.

Lemma C4_witness :
  payments_queue Ex.w_markedA_queued = [Ex.itemA]
  /\ type Ex.itemA <> EXIT_PAYMENT_TYPE
  /\ isfile Ex.w_markedA_queued (marker_path "payments" 5 "addrA" "D") = true
  /\ exists w',
       ConsumerThread.run_step Ex.executor (Ex.env 0) ConsumerThread.Get Ex.w_markedA_queued
       = Some (ConsumerThread.Waiting Ex.itemA, w')
       /\ payments_queue w' = []
       /\ In (Popen Ex.cmdA) (emitted Ex.w_markedA_queued w').
Proof.
  split; [reflexivity|]. split; [discriminate|]. split; [vm_compute; reflexivity|].
  destruct (C4_transfer_without_marker_check Ex.executor (Ex.env 0) Ex.itemA []
              Ex.w_markedA_queued eq_refl ltac:(discriminate))
    as (w' & Hstep & Hq & _ & _ & Hem).
  exists w'. split; [exact Hstep|]. split; [exact Hq|].
  rewrite Hem. right. right. right. left. reflexivity.
Defined.

(** ** The exit payment *)

(** C5.  In run mode ONETIME, when the loop over a cycle's payments has
    ended and the report is closed, the scanner goes to the [put] of one
    exit payment with the queue and the files unchanged; that [put]
    appends exactly the exit payment (as soon as the queue has room) and
    the thread has returned, after which it makes no step.  An executor
    that takes a payment of type [exit] off the queue has returned as
    well: no file or directory changes, no transfer command is launched
    and no marker is written, and it makes no further step. *)
Theorem C5_onetime_exit_payment (s : ProducerThread.self) (c : ConsumerThread.self)
    (env : Env) (pcy cur : Z) (w : World) :
  ProducerThread.run_mode s = ONETIME ->
  close_ok env = true ->
  (exists w1,
     ProducerThread.run_step s env (ProducerThread.Items pcy cur []) w
     = Some (ProducerThread.PutExitPayment ProducerThread.ExitOnetime, w1)
     /\ payments_queue w1 = payments_queue w
     /\ files w1 = files w)
  /\ (forall env2 w2,
        full w2 = false ->
        exists w3,
          ProducerThread.run_step s env2
            (ProducerThread.PutExitPayment ProducerThread.ExitOnetime) w2
          = Some (ProducerThread.Returned, w3)
          /\ payments_queue w3 = payments_queue w2 ++ [ProducerThread.create_exit_payment]
          /\ emitted w2 w3 = [QueuePutExit ProducerThread.create_exit_payment])
  /\ (forall env3 w3, ProducerThread.run_step s env3 ProducerThread.Returned w3 = None)
  /\ (forall env4 w4 item q,
        payments_queue w4 = item :: q ->
        type item = EXIT_PAYMENT_TYPE ->
        exists w5,
          ConsumerThread.run_step c env4 ConsumerThread.Get w4
          = Some (ConsumerThread.Returned, w5)
          /\ payments_queue w5 = q
          /\ files w5 = files w4
          /\ dirs w5 = dirs w4
          /\ forallb (fun e => negb (is_transfer e || is_marker_write e)) (emitted w4 w5)
             = true)
  /\ (forall env5 w5, ConsumerThread.run_step c env5 ConsumerThread.Returned w5 = None).
Proof.
  intros Hmode Hclose. repeat split.
  - cbn [ProducerThread.run_step]. unfold ProducerThread.finish_cycle.
    rewrite Hclose, Hmode. cbn [negb RunMode_eqb].
    eexists. split; [reflexivity|]. split; reflexivity.
  - intros env2 w2 Hroom. cbn [ProducerThread.run_step].
    unfold ProducerThread.put_exit. rewrite Hroom.
    eexists. split; [reflexivity|]. split; [reflexivity|].
    apply emitted_app. reflexivity.
  - intros env4 w4 item q Hq Hty. cbn [ConsumerThread.run_step].
    unfold ConsumerThread.get. rewrite Hq, Hty. cbn [String.eqb].
    replace (EXIT_PAYMENT_TYPE =? EXIT_PAYMENT_TYPE)%string with true by reflexivity.
    eexists. split; [reflexivity|].
    split; [reflexivity|]. split; [reflexivity|]. split; [reflexivity|].
    erewrite emitted_app; [|cbn; rewrite <- !app_assoc; reflexivity].
    reflexivity.
Qed.

Lemma C5_witness :
  ProducerThread.run_mode (Ex.scanner ONETIME) = ONETIME
  /\ close_ok (Ex.env 0) = true
  /\ (exists w3,
        ProducerThread.run_step (Ex.scanner ONETIME) (Ex.env 0)
          (ProducerThread.PutExitPayment ProducerThread.ExitOnetime) Ex.w0
        = Some (ProducerThread.Returned, w3)
        /\ payments_queue w3 = [ProducerThread.create_exit_payment])
  /\ (exists w5,
        ConsumerThread.run_step Ex.executor (Ex.env 0) ConsumerThread.Get Ex.w_exit_queued
        = Some (ConsumerThread.Returned, w5)
        /\ payments_queue w5 = [Ex.itemA]).
Proof.
  split; [reflexivity|]. split; [reflexivity|].
  destruct (C5_onetime_exit_payment (Ex.scanner ONETIME) Ex.executor (Ex.env 0) 5 11 Ex.w0
              eq_refl eq_refl) as (_ & Hput & _ & Hget & _).
  split.
  - destruct (Hput (Ex.env 0) Ex.w0 eq_refl) as (w3 & Hstep & Hq & _).
    exists w3. split; [exact Hstep | exact Hq].
  - destruct (Hget (Ex.env 0) Ex.w_exit_queued ProducerThread.create_exit_payment
                [Ex.itemA] eq_refl eq_refl) as (w5 & Hstep & Hq & _).
    exists w5. split; [exact Hstep | exact Hq].
Defined.

(** ** One pass of the scanner's loop *)

Ltac solve_trace :=
  cbn [trace emit logger put writerow open_w makedirs fst snd];
  first [ reflexivity
        | rewrite <- !app_assoc; reflexivity
        | symmetry; apply app_nil_r ].

Ltac emitted_in H := erewrite emitted_app in H by solve_trace; cbn [In app] in H.

Ltac no_such_event H :=
  emitted_in H; repeat (destruct H as [H|H]; [discriminate H|]); contradiction.

(** C7.  When a pass of the loop fetches the rewards of the candidate
    cycle (which it does only for a payable cycle) and their total is
    zero, the scanner is at the head of the loop with the next cycle, no
    file was written and nothing was enqueued, and the trace shows the fetch
    and the two log lines only: the payment calculator was not called and
    no report was opened. *)
Theorem C7_zero_rewards_skip (s : ProducerThread.self) (env : Env) (c cur : Z)
    (w w' : World) (p' : ProducerThread.pc) (total : pyval) :
  ProducerThread.run_step s env (ProducerThread.Loop c) w = Some (p', w') ->
  In (FetchRewards c cur) (emitted w w') ->
  get_total_rewards env = Some total ->
  py_eq_zero total = true ->
  p' = ProducerThread.Loop (c + 1)
  /\ files w' = files w
  /\ payments_queue w' = payments_queue w
  /\ emitted w w'
     = [Log INFO "Payment cycle is " [VInt c];
        FetchRewards c cur;
        Log INFO "Total rewards is zero skipping payment" []]
  /\ forallb (fun e => negb (is_calc e || is_open_report e || is_put e)) (emitted w w')
     = true.
Proof.
  intros Hstep Hin Htot Hzero.
  cbn [ProducerThread.run_step] in Hstep.
  unfold ProducerThread.scan, ProducerThread.process_cycle in Hstep.
  rewrite Htot, Hzero in Hstep.
  repeat case_match; simplify_eq; try (exfalso; no_such_event Hin).
  all: match goal with
       | |- context [emitted ?w0 ?W] =>
           assert (Hem : exists cur',
                      emitted w0 W
                      = [Log INFO "Payment cycle is " [VInt c]; FetchRewards c cur';
                         Log INFO "Total rewards is zero skipping payment" []])
             by (eexists; apply emitted_app; solve_trace)
       end.
  all: destruct Hem as [cur' Hem]; rewrite Hem in Hin |- *.
  all: destruct Hin as [Hin|[Hin|[Hin|[]]]]; try discriminate Hin.
  all: injection Hin as ->; repeat split.
Qed.

Lemma C7_witness :
  exists w',
    ProducerThread.run_step (Ex.scanner FOREVER) Ex.env_zero (ProducerThread.Loop 5) Ex.w0
    = Some (ProducerThread.Loop 6, w')
    /\ In (FetchRewards 5 11) (emitted Ex.w0 w')
    /\ get_total_rewards Ex.env_zero = Some (VFloat float_zero)
    /\ py_eq_zero (VFloat float_zero) = true
    /\ files w' = files Ex.w0
    /\ payments_queue w' = [].
Proof.
  eexists. split; [reflexivity|].
  assert (Hin : In (FetchRewards 5 11)
                  (emitted Ex.w0
                     (snd (ProducerThread.scan (Ex.scanner FOREVER) Ex.env_zero 5 Ex.w0)))).
  { right. left. reflexivity. }
  split; [exact Hin|]. split; [reflexivity|]. split; [reflexivity|].
  destruct (C7_zero_rewards_skip (Ex.scanner FOREVER) Ex.env_zero 5 11 Ex.w0 _ _
              (VFloat float_zero) eq_refl Hin eq_refl eq_refl)
    as (_ & Hfiles & Hq & _).
  split; [exact Hfiles | exact Hq].
Defined.

(** C9, as the claim states it, fails: the reports directory exists, and
    so does a directory named after cycle 5 inside it, yet the scanner
    fetches the rewards of cycle 5, writes its report and enters the loop
    over its payments. *)
Lemma C9_counterexample :
  isdir Ex.w_reports (ProducerThread.reports_dir (Ex.scanner FOREVER)) = true
  /\ isdir Ex.w_reports (payment_dir_c (ProducerThread.reports_dir (Ex.scanner FOREVER)) "5")
     = true
  /\ exists w',
       ProducerThread.run_step (Ex.scanner FOREVER) (Ex.env 0) (ProducerThread.Loop 5)
         Ex.w_reports
       = Some (ProducerThread.Items 5 11 [Ex.itemA; Ex.itemB], w')
       /\ In (FetchRewards 5 11) (trace w')
       /\ isfile w' "reports/5.csv" = true.
Proof.
  split; [vm_compute; reflexivity|]. split; [vm_compute; reflexivity|].
  eexists. split; [reflexivity|]. split.
  - right. left. reflexivity.
  - vm_compute. reflexivity.
Qed.

(** C9, amended.  On a pass of the loop, if the directory of the
    candidate cycle under the payments directory,
    <payments_dir>/<cycle>, exists, the scanner logs the warning and is
    at the head of the loop with the next cycle: no rewards are fetched,
    no file or directory is written and nothing is enqueued. *)
Theorem C9_payment_dir_present_skips (s : ProducerThread.self) (env : Env)
    (c lvl cur : Z) (w : World) :
  is_running env = true ->
  get_current_level env = Some (lvl, cur) ->
  isdir w (ProducerThread.payments_dir s +:+ "/" +:+ py_str_int c) = true ->
  exists w',
    ProducerThread.run_step s env (ProducerThread.Loop c) w
    = Some (ProducerThread.Loop (c + 1), w')
    /\ files w' = files w
    /\ dirs w' = dirs w
    /\ payments_queue w' = payments_queue w
    /\ emitted w w'
       = [Log WARNING
            "Payment directory for cycle {} is present. No payment will be run for the cycle"
            [VInt c]].
Proof.
  intros Hrun Hlvl Hdir.
  cbn [ProducerThread.run_step]. unfold ProducerThread.scan, payment_dir_c.
  rewrite Hrun, Hlvl, Hdir.
  eexists. split; [reflexivity|].
  split; [reflexivity|]. split; [reflexivity|]. split; [reflexivity|].
  apply emitted_app. reflexivity.
Qed.

Lemma C9_witness :
  is_running (Ex.env 0) = true
  /\ get_current_level (Ex.env 0) = Some (1500, 11)
  /\ isdir Ex.w_markedA ("payments" +:+ "/" +:+ py_str_int 5) = true
  /\ exists w',
       ProducerThread.run_step (Ex.scanner FOREVER) (Ex.env 0) (ProducerThread.Loop 5)
         Ex.w_markedA
       = Some (ProducerThread.Loop 6, w')
       /\ payments_queue w' = [].
Proof.
  split; [reflexivity|]. split; [reflexivity|].
  assert (Hdir : isdir Ex.w_markedA ("payments" +:+ "/" +:+ py_str_int 5) = true)
    by (vm_compute; reflexivity).
  split; [exact Hdir|].
  destruct (C9_payment_dir_present_skips (Ex.scanner FOREVER) (Ex.env 0) 5 1500 11
              Ex.w_markedA eq_refl eq_refl Hdir) as (w' & Hstep & _ & _ & Hq & _).
  exists w'. split; [exact Hstep | exact Hq].
Defined.

(** ** The report and the queue *)

(** C8, as the claim states it, fails: cycle 5 has the payments
    [itemA; itemB]; the report is opened, the row of [itemA] is written
    and [itemA] is enqueued, then writing the row of [itemB] raises.  The
    scanner is back at the head of the loop with cycle 5 still to do, the
    report holds the rows up to [itemA] only, and [itemA] is in the
    queue. *)
Lemma C8_counterexample :
  exists w',
    run_producer (Ex.scanner FOREVER)
      [Ex.env 0; Ex.env 0; Ex.env 0; Ex.env_write_fails] (ProducerThread.Loop 5) Ex.w0
    = Some (ProducerThread.Loop 5, w')
    /\ payments_queue w' = [Ex.itemA]
    /\ files w' !! "reports/5.csv"
       = Some [ProducerThread.header_row;
               ProducerThread.baker_row (Ex.scanner FOREVER) (VInt 1000);
               ProducerThread.item_row (Ex.scanner FOREVER) Ex.itemA]
    /\ last (trace w') = Some (Log ERROR "Error at reward calculation" []).
Proof.
  eexists. split; [vm_compute; reflexivity|].
  split; [reflexivity|]. split; vm_compute; reflexivity.
Qed.

Ltac which_event H :=
  emitted_in H;
  repeat (destruct H as [H|H]; [try discriminate H|]); try contradiction.

Ltac negb_hyps :=
  repeat match goal with
         | H : negb _ = true |- _ => apply negb_true_iff in H
         | H : negb _ = false |- _ => apply negb_false_iff in H
         end.

(** The pass of the loop that opens the report of a cycle. *)
Lemma report_opening_pass (s : ProducerThread.self) (env : Env) (c cur : Z)
    (w w' : World) (p' : ProducerThread.pc) :
  ProducerThread.run_step s env (ProducerThread.Loop c) w = Some (p', w') ->
  In (OpenReport c cur (ProducerThread.report_path s c)) (emitted w w') ->
  payments_queue w' = payments_queue w
  /\ (forall m, m <> ProducerThread.report_path s c -> files w' !! m = files w !! m)
  /\ (open_ok env = false \/ write_ok env = false -> p' = ProducerThread.Loop c)
  /\ (open_ok env = true -> write_ok env = true ->
      exists total items,
        get_total_rewards env = Some total
        /\ calculate_payments env = Some items
        /\ p' = ProducerThread.Items c cur items
        /\ files w' !! ProducerThread.report_path s c
           = Some [ProducerThread.header_row; ProducerThread.baker_row s total]).
Proof.
  intros Hstep Hin.
  cbn [ProducerThread.run_step] in Hstep.
  unfold ProducerThread.scan, ProducerThread.process_cycle, ProducerThread.on_error
    in Hstep.
  repeat case_match; simplify_eq; try (exfalso; no_such_event Hin).
  all: which_event Hin; simplify_eq; negb_hyps.
  all: split; [reflexivity|].
  all: split; [intros m Hm; cbn [files logger emit writerow open_w makedirs];
               rewrite ?lookup_insert_ne by congruence; reflexivity|].
  all: split; [intros [Ho|Hw]; first [reflexivity | congruence]|].
  all: intros Ho Hw; try congruence.
  all: do 2 eexists; split; [reflexivity|]; split; [reflexivity|]; split; [reflexivity|].
  all: cbn [files logger emit writerow open_w makedirs].
  all: rewrite !lookup_insert_eq; reflexivity.
Qed.

(** C8, amended.  The report of a cycle is opened, and its header row and
    baker row are written, in the pass that enters the loop over the
    cycle's payments, before any of them is enqueued; in that loop the row
    of a payment is written before that payment is put on the queue, and
    the put itself writes no file.  If opening the report or writing its
    two leading rows raises, the pass ends with the queue unchanged and no
    file other than the report touched (so no marker is created), and the
    scanner is at the head of the loop with the same cycle, which is
    retried. *)
Theorem C8_report_rows_before_puts (s : ProducerThread.self) (env : Env) (c cur : Z)
    (w : World) :
  (forall p' w',
     ProducerThread.run_step s env (ProducerThread.Loop c) w = Some (p', w') ->
     In (OpenReport c cur (ProducerThread.report_path s c)) (emitted w w') ->
     payments_queue w' = payments_queue w
     /\ (forall m, m <> ProducerThread.report_path s c -> files w' !! m = files w !! m)
     /\ (open_ok env = false \/ write_ok env = false -> p' = ProducerThread.Loop c)
     /\ (open_ok env = true -> write_ok env = true ->
         exists total items,
           get_total_rewards env = Some total
           /\ calculate_payments env = Some items
           /\ p' = ProducerThread.Items c cur items
           /\ files w' !! ProducerThread.report_path s c
              = Some [ProducerThread.header_row; ProducerThread.baker_row s total]))
  /\ (forall item rest p' w',
        ProducerThread.run_step s env (ProducerThread.Items c cur (item :: rest)) w
        = Some (p', w') ->
        payments_queue w' = payments_queue w
        /\ (p' = ProducerThread.PutItem c cur item rest ->
            files w' !! ProducerThread.report_path s c
            = Some (default [] (files w !! ProducerThread.report_path s c)
                    ++ [ProducerThread.item_row s item])))
  /\ (forall item rest p' w',
        ProducerThread.run_step s env (ProducerThread.PutItem c cur item rest) w
        = Some (p', w') ->
        p' = ProducerThread.Items c cur rest
        /\ files w' = files w
        /\ payments_queue w' = payments_queue w ++ [item]).
Proof.
  split; [|split].
  - intros p' w'. apply report_opening_pass.
  - intros item rest p' w' Hstep.
    cbn [ProducerThread.run_step] in Hstep.
    unfold ProducerThread.process_item, ProducerThread.on_error in Hstep.
    repeat case_match; simplify_eq; (split; [reflexivity|]); intros Hp;
      try discriminate Hp.
    cbn [files logger emit writerow]. now rewrite lookup_insert_eq.
  - intros item rest p' w' Hstep.
    cbn [ProducerThread.run_step] in Hstep. unfold ProducerThread.put_item in Hstep.
    destruct (full w); [discriminate|]. simplify_eq. repeat split.
Qed.

Lemma C8_witness :
  exists w',
    ProducerThread.run_step (Ex.scanner FOREVER) Ex.env_open_fails (ProducerThread.Loop 5)
      Ex.w0
    = Some (ProducerThread.Loop 5, w')
    /\ In (OpenReport 5 11 "reports/5.csv") (emitted Ex.w0 w')
    /\ open_ok Ex.env_open_fails = false
    /\ payments_queue w' = []
    /\ forall m, m <> "reports/5.csv" -> files w' !! m = files Ex.w0 !! m.
Proof.
  eexists. split; [reflexivity|].
  assert (Hin : In (OpenReport 5 11 (ProducerThread.report_path (Ex.scanner FOREVER) 5))
                  (emitted Ex.w0
                     (snd (ProducerThread.scan (Ex.scanner FOREVER) Ex.env_open_fails 5
                             Ex.w0)))).
  { right. right. right. right. left. reflexivity. }
  split; [exact Hin|]. split; [reflexivity|].
  destruct (C8_report_rows_before_puts (Ex.scanner FOREVER) Ex.env_open_fails 5 11 Ex.w0)
    as (Hopen & _ & _).
  destruct (Hopen _ _ eq_refl Hin) as (Hq & Hfiles & _ & _).
  split; [exact Hq | exact Hfiles].
Defined.

(** ** Start-up *)

(** C6, as the claim states it, fails: the founders' shares 0.57, 0.35
    and 0.08 sum, in floating point, to 0.9999999999999999, the [float]
    just below 1.0, which is within 2^-52 of 1.0; [main] raises all the
    same and starts no thread. *)
Lemma C6_counterexample :
  py_sum (List.map snd Ex.shares) = Ex.float_below_one
  /\ SFltb (SFabs (float_sub (py_sum (List.map snd Ex.shares)) float_one)) float_epsilon
     = true
  /\ raised (main (Ex.cfg Ex.shares) Ex.startup_env (Ex.args false))
     = Some (ShareSumError "Map '{}' shares does not sum up to 1!" "founders map")
  /\ actions (main (Ex.cfg Ex.shares) Ex.startup_env (Ex.args false)) = [].
Proof.
  split; [vm_compute; reflexivity|].
  split; [vm_compute; reflexivity|]. split; vm_compute; reflexivity.
Qed.

(** C6, amended.  With a known network and run mode: if the [float] sum
    of the founders' shares or of the owners' shares, added left to
    right, is not exactly equal to 1 (no tolerance is applied), [main]
    raises the share-sum exception having started nothing, neither the
    life cycle nor any thread; if both sums are exactly 1 both validations
    pass and, once the initial cycle is resolved, [main] raises nothing
    and has started the producer (and one consumer unless in dry run). *)
Theorem C6_exact_share_sum (cfg : Configuration) (env : StartupEnv) (a : Args)
    (nc : NetworkConfig) (mode : RunMode) :
  assoc (network a) (network_config_map cfg) = Some nc ->
  RunMode_of (args_run_mode a) = Some mode ->
  let founders_ok := SFeqb (py_sum (List.map snd (founders_map cfg))) float_one in
  let owners_ok := SFeqb (py_sum (List.map snd (owners_map cfg))) float_one in
  (founders_ok && owners_ok = false ->
   actions (main cfg env a) = []
   /\ exists msg map_name, raised (main cfg env a) = Some (ShareSumError msg map_name))
  /\ (founders_ok && owners_ok = true ->
      validate_map_share_sum (founders_map cfg) "founders map" = None
      /\ validate_map_share_sum (owners_map cfg) "owners map" = None
      /\ forall c0,
           resolve_initial_cycle env a = inr c0 ->
           raised (main cfg env a) = None
           /\ (exists p, started_producers (main cfg env a) = [p])
           /\ length (started_consumers (main cfg env a))
              = if dry_run a then O else 1%nat).
Proof.
  intros Hnet Hmode founders_ok owners_ok.
  unfold main, validate_map_share_sum. rewrite Hnet, Hmode.
  fold founders_ok owners_ok.
  destruct founders_ok; cbn [negb andb].
  - destruct owners_ok; cbn [negb]; split; try discriminate.
    + intros _. split; [reflexivity|]. split; [reflexivity|].
      intros c0 Hc0. rewrite Hc0.
      destruct (dry_run a); cbn; (split; [reflexivity|]); split; eauto.
    + intros _. split; [reflexivity|]. eauto.
  - split; [|discriminate]. intros _. split; [reflexivity|]. eauto.
Qed.

Lemma C6_witness :
  assoc (network (Ex.args false)) (network_config_map (Ex.cfg Ex.shares_one))
  = Some Ex.net
  /\ RunMode_of (args_run_mode (Ex.args false)) = Some FOREVER
  /\ resolve_initial_cycle Ex.startup_env (Ex.args false) = inr 5
  /\ raised (main (Ex.cfg Ex.shares_one) Ex.startup_env (Ex.args false)) = None
  /\ length (started_consumers (main (Ex.cfg Ex.shares_one) Ex.startup_env (Ex.args false)))
     = 1%nat.
Proof.
  split; [reflexivity|]. split; [reflexivity|]. split; [reflexivity|].
  destruct (C6_exact_share_sum (Ex.cfg Ex.shares_one) Ex.startup_env (Ex.args false)
              Ex.net FOREVER eq_refl eq_refl) as (_ & Hpass).
  destruct (Hpass ltac:(vm_compute; reflexivity)) as (_ & _ & Hstart).
  destruct (Hstart 5 eq_refl) as (Hraised & _ & Hcons).
  split; [exact Hraised | exact Hcons].
Defined.

(** ** Dry run *)

Ltac trace_effects :=
  repeat first
    [ assumption
    | apply Forall_logger
    | apply Forall_emit
    | progress cbn [trace put writerow open_w makedirs]
    | (split; reflexivity) ].

(** The scanner launches no transfer, writes no marker, and writes files
    at report paths only. *)
Lemma producer_step_frame (s : ProducerThread.self) (env : Env)
    (p p' : ProducerThread.pc) (w w' : World) :
  ProducerThread.run_step s env p w = Some (p', w') ->
  (Forall no_payment_effect (trace w) -> Forall no_payment_effect (trace w'))
  /\ (forall m, (forall c, m <> ProducerThread.report_path s c) ->
                files w' !! m = files w !! m).
Proof.
  intros Hstep.
  assert (Hne : forall m c (fs : gmap string (list Row)) rows,
             (forall c0, m <> ProducerThread.report_path s c0) ->
             <[ProducerThread.report_path s c := rows]> fs !! m = fs !! m).
  { intros m c fs rows Hm. apply lookup_insert_ne. apply not_eq_sym, Hm. }
  destruct p as [|c|c cur [|item rest]|c cur item rest|why|c [|n]| |];
    cbn [ProducerThread.run_step] in Hstep;
    unfold ProducerThread.start, ProducerThread.scan, ProducerThread.process_cycle,
      ProducerThread.finish_cycle, ProducerThread.process_item,
      ProducerThread.put_item, ProducerThread.put_exit, ProducerThread.on_error
      in Hstep;
    repeat case_match; simplify_eq;
    (split;
     [ intros Hw; trace_effects
     | intros m Hm; cbn [files logger emit put writerow open_w makedirs];
       rewrite ?Hne by exact Hm; reflexivity ]).
Qed.

Lemma reachable_without_consumers (p : ProducerThread.self) fs ds (st : System) :
  reachable (mkThreads p []) fs ds st ->
  Forall no_payment_effect (trace (world st))
  /\ (forall m, (forall c, m <> ProducerThread.report_path p c) ->
                files (world st) !! m = fs !! m).
Proof.
  induction 1 as [|st st' Hreach [IHt IHf] Hstep].
  - split; [constructor | reflexivity].
  - destruct Hstep as [env st p' w' Hrun | env st i c q q' w' Hc Hq Hrun]; cbn.
    + destruct (producer_step_frame _ _ _ _ _ _ Hrun) as [Ht Hf].
      split; [apply Ht, IHt|]. intros m Hm. rewrite (Hf m Hm). apply IHf, Hm.
    + cbn in Hc. rewrite lookup_nil in Hc. discriminate Hc.
Qed.

(** C10.  With the dry-run flag set, [main] starts no consumer thread
    and gives the producer the reports directory ./dry; in every state
    the started threads can reach from any file system, the trace holds
    no launch of a transfer command and no marker write, and every path
    that is the marker path of some key holds what it held at the start. *)
Theorem C10_dry_run_no_transfer (cfg : Configuration) (env : StartupEnv) (a : Args) :
  dry_run a = true ->
  started_consumers (main cfg env a) = []
  /\ (forall p, In p (started_producers (main cfg env a)) ->
                ProducerThread.reports_dir p = "./dry")
  /\ (forall p fs ds st,
        In p (started_producers (main cfg env a)) ->
        reachable (mkThreads p (started_consumers (main cfg env a))) fs ds st ->
        Forall no_payment_effect (trace (world st))
        /\ forall d cy ad ty m,
             payment_file_name d cy ad ty = Some m ->
             files (world st) !! m = fs !! m).
Proof.
  intros Hdry.
  assert (Hcons : started_consumers (main cfg env a) = []).
  { unfold main. rewrite Hdry. repeat case_match; reflexivity. }
  split; [exact Hcons|]. split.
  - intros p Hp. unfold main in Hp. rewrite Hdry in Hp.
    repeat case_match; cbn in Hp; try contradiction.
    destruct Hp as [<-|[]]. reflexivity.
  - intros p fs ds st Hp Hreach. rewrite Hcons in Hreach.
    destruct (reachable_without_consumers p fs ds st Hreach) as [Ht Hf].
    split; [exact Ht|].
    intros d cy ad ty m Hm. apply Hf. intros c.
    eapply marker_is_not_report. exact Hm.
Qed.

Lemma C10_witness :
  dry_run (Ex.args true) = true
  /\ started_producers Ex.dry_startup = [Ex.dry_producer]
  /\ started_consumers Ex.dry_startup = []
  /\ exists st,
       reachable (mkThreads Ex.dry_producer (started_consumers Ex.dry_startup)) ∅ ∅ st
       /\ producer st = ProducerThread.PutItem 5 11 Ex.itemA [Ex.itemB]
       /\ Forall no_payment_effect (trace (world st)).
Proof.
  split; [reflexivity|].
  assert (Hp : started_producers Ex.dry_startup = [Ex.dry_producer]) by reflexivity.
  split; [exact Hp|].
  destruct (C10_dry_run_no_transfer (Ex.cfg Ex.shares_one) Ex.startup_env (Ex.args true)
              eq_refl) as (Hcons & _ & Hsafe).
  split; [exact Hcons|].
  destruct (sys_after (mkThreads Ex.dry_producer (started_consumers Ex.dry_startup))
              (repeat (Ex.env 0) 3) ∅ ∅) as [st|] eqn:Hst;
    [|vm_compute in Hst; discriminate Hst].
  exists st.
  pose proof (reachable_sys_after _ _ _ _ _ Hst) as Hreach.
  split; [exact Hreach|]. split.
  - vm_compute in Hst. injection Hst as <-. reflexivity.
  - apply (Hsafe Ex.dry_producer ∅ ∅ st); [|exact Hreach].
    fold Ex.dry_startup. rewrite Hp. left. reflexivity.
Defined.

(** * Further properties of the pipeline *)

(** ** The bounded queue *)

Lemma full_false_length (w : World) :
  full w = false -> (length (payments_queue w) < BUF_SIZE)%nat.
Proof. unfold full. intros H. apply Nat.leb_gt in H. exact H. Qed.

Lemma producer_step_queue_bound (s : ProducerThread.self) (env : Env)
    (p p' : ProducerThread.pc) (w w' : World) :
  ProducerThread.run_step s env p w = Some (p', w') ->
  (length (payments_queue w) <= BUF_SIZE)%nat ->
  (length (payments_queue w') <= BUF_SIZE)%nat.
Proof.
  intros Hstep Hw.
  destruct p as [|c|c cur [|item rest]|c cur item rest|why|c [|n]| |];
    cbn [ProducerThread.run_step] in Hstep;
    unfold ProducerThread.start, ProducerThread.scan, ProducerThread.process_cycle,
      ProducerThread.finish_cycle, ProducerThread.process_item,
      ProducerThread.put_item, ProducerThread.put_exit, ProducerThread.on_error
      in Hstep;
    repeat case_match; simplify_eq;
    cbn [payments_queue logger emit put writerow open_w makedirs];
    try exact Hw;
    match goal with
    | H : full _ = false |- _ =>
        apply full_false_length in H; rewrite length_app; cbn [length]; lia
    end.
Qed.

Lemma consumer_step_queue_bound (c : ConsumerThread.self) (env : Env)
    (p p' : ConsumerThread.pc) (w w' : World) :
  ConsumerThread.run_step c env p w = Some (p', w') ->
  (length (payments_queue w) <= BUF_SIZE)%nat ->
  (length (payments_queue w') <= BUF_SIZE)%nat.
Proof.
  intros Hstep Hw.
  destruct p as [| |item|]; cbn [ConsumerThread.run_step] in Hstep;
    unfold ConsumerThread.get, ConsumerThread.finish, ConsumerThread.on_error in Hstep;
    repeat case_match; simplify_eq;
    cbn [payments_queue logger emit put writerow open_w makedirs];
    try exact Hw;
    cbn [length] in Hw; lia.
Qed.

(** X1.  In every state the threads can reach, the queue holds at most
    [BUF_SIZE] items: a [put], of a payment or of the exit payment, only
    happens while there is room. *)
Theorem queue_never_exceeds_BUF_SIZE (t : Threads) (fs : gmap string (list Row))
    (ds : gset string) (st : System) :
  reachable t fs ds st ->
  (length (payments_queue (world st)) <= BUF_SIZE)%nat.
Proof.
  induction 1 as [|st st' Hreach IH Hstep].
  - cbn. unfold BUF_SIZE. lia.
  - destruct Hstep as [env st p' w' Hrun | env st i c p p' w' Hc Hp Hrun]; cbn.
    + eapply producer_step_queue_bound; eauto.
    + eapply consumer_step_queue_bound; eauto.
Qed.

Lemma queue_never_exceeds_BUF_SIZE_witness :
  exists st,
    reachable (Ex.threads FOREVER) ∅ ∅ st
    /\ payments_queue (world st) = [Ex.itemA]
    /\ (length (payments_queue (world st)) <= BUF_SIZE)%nat.
Proof.
  destruct (sys_after (Ex.threads FOREVER) (repeat (Ex.env 0) 4) ∅ ∅) as [st|] eqn:Hst;
    [|vm_compute in Hst; discriminate Hst].
  exists st.
  pose proof (reachable_sys_after _ _ _ _ _ Hst) as Hreach.
  split; [exact Hreach|]. split.
  - vm_compute in Hst. injection Hst as <-. reflexivity.
  - exact (queue_never_exceeds_BUF_SIZE (Ex.threads FOREVER) ∅ ∅ st Hreach).
Defined.

Ltac queue_events :=
  cbn [trace payments_queue logger emit put writerow open_w makedirs];
  unfold enqueued, dequeued in *;
  rewrite ?omap_app; cbn [omap list_omap app];
  rewrite ?app_nil_r.

Lemma producer_step_fifo (s : ProducerThread.self) (env : Env)
    (p p' : ProducerThread.pc) (w w' : World) :
  ProducerThread.run_step s env p w = Some (p', w') ->
  dequeued (trace w) ++ payments_queue w = enqueued (trace w) ->
  dequeued (trace w') ++ payments_queue w' = enqueued (trace w').
Proof.
  intros Hstep Hw.
  destruct p as [|c|c cur [|item rest]|c cur item rest|why|c [|n]| |];
    cbn [ProducerThread.run_step] in Hstep;
    unfold ProducerThread.start, ProducerThread.scan, ProducerThread.process_cycle,
      ProducerThread.finish_cycle, ProducerThread.process_item,
      ProducerThread.put_item, ProducerThread.put_exit, ProducerThread.on_error
      in Hstep;
    repeat case_match; simplify_eq; queue_events;
    first [ exact Hw | rewrite app_assoc, Hw; reflexivity ].
Qed.

Lemma consumer_step_fifo (c : ConsumerThread.self) (env : Env)
    (p p' : ConsumerThread.pc) (w w' : World) :
  ConsumerThread.run_step c env p w = Some (p', w') ->
  dequeued (trace w) ++ payments_queue w = enqueued (trace w) ->
  dequeued (trace w') ++ payments_queue w' = enqueued (trace w').
Proof.
  intros Hstep Hw.
  destruct p as [| |item|]; cbn [ConsumerThread.run_step] in Hstep;
    unfold ConsumerThread.get, ConsumerThread.finish, ConsumerThread.on_error in Hstep;
    repeat case_match; simplify_eq; queue_events;
    first [ exact Hw | rewrite <- app_assoc; exact Hw ].
Qed.

(** X2.  In every state the threads can reach, the items taken off the
    queue so far, followed by the items still in it, are exactly the items
    put on it so far, in the order of the puts: nothing is lost,
    duplicated or reordered between the scanner and the executors. *)
Theorem queue_is_fifo (t : Threads) (fs : gmap string (list Row))
    (ds : gset string) (st : System) :
  reachable t fs ds st ->
  dequeued (trace (world st)) ++ payments_queue (world st)
  = enqueued (trace (world st)).
Proof.
  induction 1 as [|st st' Hreach IH Hstep].
  - reflexivity.
  - destruct Hstep as [env st p' w' Hrun | env st i c p p' w' Hc Hp Hrun]; cbn.
    + eapply producer_step_fifo; eauto.
    + eapply consumer_step_fifo; eauto.
Qed.

Lemma reachable_consumer_steps (t : Threads) fs ds (i : nat) (envs : list Env) :
  forall st st',
    reachable t fs ds st ->
    consumer_steps t i envs st = Some st' ->
    reachable t fs ds st'.
Proof.
  induction envs as [|env envs IH]; intros st st' Hst Hrun; cbn in Hrun.
  - now simplify_eq.
  - destruct (the_consumers t !! i) as [c|] eqn:Hc; [|discriminate].
    destruct (consumers st !! i) as [p|] eqn:Hp; [|discriminate].
    destruct (ConsumerThread.run_step c env p (world st)) as [[p' w']|] eqn:Hstep;
      [|discriminate].
    eapply IH; [|exact Hrun].
    eapply reachable_step; [exact Hst|]. eapply step_consumer; eauto.
Qed.

Lemma reachable_sys_after_both (t : Threads) fs ds (penvs cenvs : list Env)
    (st : System) :
  sys_after_both t penvs cenvs fs ds = Some st -> reachable t fs ds st.
Proof.
  unfold sys_after_both. intros H.
  destruct (sys_after t penvs fs ds) as [st0|] eqn:Hst0; [|discriminate].
  eapply reachable_consumer_steps; [|exact H].
  eapply reachable_sys_after. exact Hst0.
Qed.

Lemma queue_is_fifo_witness :
  exists st,
    reachable (Ex.threads FOREVER) ∅ ∅ st
    /\ dequeued (trace (world st)) = [Ex.itemA]
    /\ payments_queue (world st) = [Ex.itemB]
    /\ enqueued (trace (world st)) = [Ex.itemA; Ex.itemB].
Proof.
  destruct (sys_after_both (Ex.threads FOREVER) (repeat (Ex.env 0) 6)
              (repeat (Ex.env 0) 2) ∅ ∅) as [st|] eqn:Hst;
    [|vm_compute in Hst; discriminate Hst].
  exists st.
  pose proof (reachable_sys_after_both _ _ _ _ _ _ Hst) as Hreach.
  split; [exact Hreach|].
  pose proof (queue_is_fifo (Ex.threads FOREVER) ∅ ∅ st Hreach) as Hfifo.
  assert (Hd : dequeued (trace (world st)) = [Ex.itemA]).
  { vm_compute in Hst. injection Hst as <-. reflexivity. }
  assert (Hq : payments_queue (world st) = [Ex.itemB]).
  { vm_compute in Hst. injection Hst as <-. reflexivity. }
  split; [exact Hd|]. split; [exact Hq|].
  rewrite <- Hfifo, Hd, Hq. reflexivity.
Defined.

(** ** The scanner's cycle counter *)

(** X3.  A step of the scanner leaves [payment_cycle] as it is or adds
    one to it: cycles are visited in increasing order and none is jumped
    over. *)
Theorem payment_cycle_advances_by_at_most_one (s : ProducerThread.self) (env : Env)
    (p p' : ProducerThread.pc) (w w' : World) (c c' : Z) :
  ProducerThread.run_step s env p w = Some (p', w') ->
  cycle_of p = Some c ->
  cycle_of p' = Some c' ->
  c' = c \/ c' = c + 1.
Proof.
  intros Hstep Hc Hc'.
  destruct p as [|c0|c0 cur [|item rest]|c0 cur item rest|why|c0 [|n]| |];
    cbn [ProducerThread.run_step] in Hstep;
    unfold ProducerThread.start, ProducerThread.scan, ProducerThread.process_cycle,
      ProducerThread.finish_cycle, ProducerThread.process_item,
      ProducerThread.put_item, ProducerThread.put_exit, ProducerThread.on_error
      in Hstep;
    repeat case_match; simplify_eq; cbn [cycle_of] in *; simplify_eq; auto.
Qed.

Lemma payment_cycle_advances_by_at_most_one_witness :
  exists w',
    ProducerThread.run_step (Ex.scanner FOREVER) Ex.env_zero (ProducerThread.Loop 5) Ex.w0
    = Some (ProducerThread.Loop 6, w')
    /\ cycle_of (ProducerThread.Loop 5) = Some 5
    /\ cycle_of (ProducerThread.Loop 6) = Some 6
    /\ (6 = 5 \/ 6 = 5 + 1).
Proof.
  eexists. split; [reflexivity|]. split; [reflexivity|]. split; [reflexivity|].
  exact (payment_cycle_advances_by_at_most_one (Ex.scanner FOREVER) Ex.env_zero
           (ProducerThread.Loop 5) (ProducerThread.Loop 6) Ex.w0 _ 5 6
           eq_refl eq_refl eq_refl).
Defined.

(** ** Passes of the loop that do not process the cycle *)

(** X4.  When a pass of the loop has fetched the rewards of the candidate
    cycle and the fetch raises, or the total is not zero and the payment
    calculation raises, the error is logged and the scanner is at the head
    of the loop with the same cycle: no file was written and nothing was
    enqueued. *)
Theorem failed_fetch_or_calculation_retries_cycle (s : ProducerThread.self)
    (env : Env) (c cur : Z) (w w' : World) (p' : ProducerThread.pc) :
  ProducerThread.run_step s env (ProducerThread.Loop c) w = Some (p', w') ->
  In (FetchRewards c cur) (emitted w w') ->
  (get_total_rewards env = None
   \/ exists total,
        get_total_rewards env = Some total
        /\ py_eq_zero total = false
        /\ calculate_payments env = None) ->
  p' = ProducerThread.Loop c
  /\ files w' = files w
  /\ payments_queue w' = payments_queue w
  /\ last (trace w') = Some (Log ERROR "Error at reward calculation" []).
Proof.
  intros Hstep Hin Herr.
  cbn [ProducerThread.run_step] in Hstep.
  unfold ProducerThread.scan, ProducerThread.process_cycle, ProducerThread.on_error
    in Hstep.
  repeat case_match; simplify_eq; try (exfalso; no_such_event Hin).
  all: try (exfalso; destruct Herr as [Herr|(total & Ht & Hnz & Hcalc)];
            simplify_eq; congruence).
  all: repeat split; cbn [trace logger emit]; apply last_snoc.
Qed.

Lemma failed_fetch_or_calculation_retries_cycle_witness :
  exists w',
    ProducerThread.run_step (Ex.scanner FOREVER) Ex2.env_fetch_fails
      (ProducerThread.Loop 5) Ex.w0
    = Some (ProducerThread.Loop 5, w')
    /\ In (FetchRewards 5 11) (emitted Ex.w0 w')
    /\ get_total_rewards Ex2.env_fetch_fails = None
    /\ payments_queue w' = []
    /\ files w' = ∅.
Proof.
  eexists. split; [reflexivity|].
  assert (Hin : In (FetchRewards 5 11)
                  (emitted Ex.w0
                     (snd (ProducerThread.scan (Ex.scanner FOREVER)
                             Ex2.env_fetch_fails 5 Ex.w0)))).
  { right. left. reflexivity. }
  split; [exact Hin|]. split; [reflexivity|].
  destruct (failed_fetch_or_calculation_retries_cycle (Ex.scanner FOREVER)
              Ex2.env_fetch_fails 5 11 Ex.w0 _ _ eq_refl Hin (or_introl eq_refl))
    as (_ & Hfiles & Hq & _).
  split; [exact Hq | exact Hfiles].
Defined.

(** X5.  A pass of the loop that finds the queue full fetches no rewards,
    writes no file, puts nothing on the queue and does not enter the loop
    over the payments of a cycle. *)
Theorem full_queue_backs_off (s : ProducerThread.self) (env : Env) (c : Z)
    (w w' : World) (p' : ProducerThread.pc) :
  full w = true ->
  ProducerThread.run_step s env (ProducerThread.Loop c) w = Some (p', w') ->
  files w' = files w
  /\ payments_queue w' = payments_queue w
  /\ forallb (fun e => negb (is_fetch e)) (emitted w w') = true
  /\ forall cur items, p' <> ProducerThread.Items c cur items.
Proof.
  intros Hfull Hstep.
  cbn [ProducerThread.run_step] in Hstep.
  unfold ProducerThread.scan, ProducerThread.process_cycle, ProducerThread.on_error
    in Hstep.
  assert (Hmk : forall d, full (makedirs d w) = full w) by reflexivity.
  repeat case_match; simplify_eq;
    try match goal with
        | H : negb (full _) = true |- _ =>
            rewrite ?Hmk, Hfull in H; discriminate H
        end.
  all: split; [reflexivity|]; split; [reflexivity|]; split; [|discriminate].
  all: erewrite emitted_app by solve_trace; reflexivity.
Qed.

Lemma full_queue_backs_off_witness :
  full Ex2.w_full = true
  /\ exists w',
       ProducerThread.run_step (Ex.scanner FOREVER) (Ex.env 0) (ProducerThread.Loop 5)
         Ex2.w_full
       = Some (ProducerThread.Loop 5, w')
       /\ files w' = ∅
       /\ payments_queue w' = payments_queue Ex2.w_full.
Proof.
  split; [reflexivity|].
  eexists. split; [reflexivity|].
  destruct (full_queue_backs_off (Ex.scanner FOREVER) (Ex.env 0) 5 Ex2.w_full _ _
              eq_refl eq_refl) as (Hfiles & Hq & _).
  split; [exact Hfiles | exact Hq].
Defined.

(** X6.  A pass of the loop whose candidate cycle is not payable yet (and
    has no payments directory) fetches nothing, writes no file and leaves
    the queue alone; in run mode PENDING the scanner goes to the [put] of
    the exit payment, after which it has returned, in the other run modes
    it waits for [(current_cycle + 1) * BLOCKS_PER_CYCLE - current_level]
    blocks. *)
Theorem unpayable_cycle_waits_or_exits (s : ProducerThread.self) (env : Env)
    (c lvl cur : Z) (w w' : World) (p' : ProducerThread.pc) :
  is_running env = true ->
  get_current_level env = Some (lvl, cur) ->
  ~ payable s c cur ->
  isdir w (payment_dir_c (ProducerThread.payments_dir s) (py_str_int c)) = false ->
  ProducerThread.run_step s env (ProducerThread.Loop c) w = Some (p', w') ->
  p' <> ProducerThread.Crashed ->
  p' = (if RunMode_eqb (ProducerThread.run_mode s) PENDING
        then ProducerThread.PutExitPayment ProducerThread.ExitPending
        else ProducerThread.Wait c
               (Z.to_nat ((cur + 1) * BLOCKS_PER_CYCLE (ProducerThread.nw_config s) - lvl)))
  /\ files w' = files w
  /\ payments_queue w' = payments_queue w
  /\ forallb (fun e => negb (is_fetch e)) (emitted w w') = true
  /\ forall env2 w2,
       full w2 = false ->
       exists w3,
         ProducerThread.run_step s env2
           (ProducerThread.PutExitPayment ProducerThread.ExitPending) w2
         = Some (ProducerThread.Returned, w3)
         /\ payments_queue w3 = payments_queue w2 ++ [ProducerThread.create_exit_payment].
Proof.
  intros Hrun Hlvl Hnot Hdir Hstep Hcrash.
  cbn [ProducerThread.run_step] in Hstep.
  unfold ProducerThread.scan in Hstep.
  rewrite Hrun, Hlvl, Hdir in Hstep.
  assert (Hle : (c <=? ProducerThread.freeze_bound s cur) = false).
  { apply Z.leb_gt. unfold payable, ProducerThread.freeze_bound in *. lia. }
  rewrite Hle in Hstep.
  assert (Hexit : forall env2 w2,
             full w2 = false ->
             exists w3,
               ProducerThread.run_step s env2
                 (ProducerThread.PutExitPayment ProducerThread.ExitPending) w2
               = Some (ProducerThread.Returned, w3)
               /\ payments_queue w3
                  = payments_queue w2 ++ [ProducerThread.create_exit_payment]).
  { intros env2 w2 Hroom. cbn [ProducerThread.run_step].
    unfold ProducerThread.put_exit. rewrite Hroom.
    eexists. split; reflexivity. }
  repeat case_match; simplify_eq; try contradiction.
  all: split; [reflexivity|]; split; [reflexivity|]; split; [reflexivity|].
  all: split; [|exact Hexit].
  all: erewrite emitted_app by solve_trace; reflexivity.
Qed.

Lemma unpayable_cycle_waits_or_exits_witness :
  is_running (Ex.env 0) = true
  /\ get_current_level (Ex.env 0) = Some (1500, 11)
  /\ ~ payable (Ex.scanner FOREVER) 6 11
  /\ exists w',
       ProducerThread.run_step (Ex.scanner FOREVER) (Ex.env 0) (ProducerThread.Loop 6)
         Ex.w0
       = Some (ProducerThread.Wait 6 36, w')
       /\ payments_queue w' = [].
Proof.
  split; [reflexivity|]. split; [reflexivity|].
  assert (Hnot : ~ payable (Ex.scanner FOREVER) 6 11).
  { unfold payable. cbn. lia. }
  split; [exact Hnot|].
  eexists. split; [reflexivity|].
  destruct (unpayable_cycle_waits_or_exits (Ex.scanner FOREVER) (Ex.env 0) 6 1500 11
              Ex.w0 _ _ eq_refl eq_refl Hnot ltac:(vm_compute; reflexivity) eq_refl
              ltac:(discriminate)) as (_ & _ & Hq & _).
  exact Hq.
Defined.

(** ** The waiting loop *)

Lemma run_producer_app (s : ProducerThread.self) (l1 l2 : list Env) :
  forall p w,
    run_producer s (l1 ++ l2) p w
    = match run_producer s l1 p w with
      | Some (p', w') => run_producer s l2 p' w'
      | None => None
      end.
Proof.
  induction l1 as [|env l1 IH]; intros p w; cbn; [reflexivity|].
  destruct (ProducerThread.run_step s env p w) as [[p1 w1]|]; [apply IH | reflexivity].
Qed.

Lemma waiting_blocks (s : ProducerThread.self) (env : Env) (c : Z) (w : World) :
  is_running env = true ->
  forall k n,
    run_producer s (repeat env k) (ProducerThread.Wait c (k + n)) w
    = Some (ProducerThread.Wait c n, w).
Proof.
  intros Hrun. induction k as [|k IH]; intros n; cbn; [reflexivity|].
  rewrite Hrun. apply IH.
Qed.

(** X7.  The loop that waits for [n] blocks changes nothing: while the
    life cycle is running, [n] waits and the end of the [for] bring the
    scanner back to the head of its loop with the same cycle and the same
    world.  If the life cycle is found stopped after [k < n] waits, the
    scanner puts one exit payment (the queue having room), leaves the
    [while] at its next test and has returned, no file being written. *)
Theorem waiting_loop (s : ProducerThread.self) (env env2 : Env) (c : Z) (k n : nat)
    (w : World) :
  is_running env = true ->
  is_running env2 = false ->
  (k < n)%nat ->
  full w = false ->
  run_producer s (repeat env (S n)) (ProducerThread.Wait c n) w
  = Some (ProducerThread.Loop c, w)
  /\ exists w',
       run_producer s (repeat env k ++ [env2; env2; env2]) (ProducerThread.Wait c n) w
       = Some (ProducerThread.Returned, w')
       /\ payments_queue w' = payments_queue w ++ [ProducerThread.create_exit_payment]
       /\ files w' = files w
       /\ dirs w' = dirs w.
Proof.
  intros Hrun Hstop Hk Hroom. split.
  - replace (S n) with (n + 1)%nat by lia.
    rewrite repeat_app, run_producer_app.
    replace n with (n + 0)%nat at 2 by lia.
    rewrite (waiting_blocks s env c w Hrun n 0%nat). reflexivity.
  - rewrite run_producer_app.
    replace n with (k + S (n - k - 1))%nat by lia.
    rewrite (waiting_blocks s env c w Hrun k (S (n - k - 1))).
    cbn [run_producer ProducerThread.run_step]. rewrite Hstop.
    cbn [run_producer ProducerThread.run_step].
    unfold ProducerThread.put_exit. rewrite Hroom.
    cbn [run_producer ProducerThread.run_step]. rewrite Hstop.
    eexists. split; [reflexivity|]. repeat split.
Qed.

Lemma waiting_loop_witness :
  is_running (Ex.env 0) = true
  /\ is_running Ex2.env_stopped = false
  /\ (1 < 3)%nat
  /\ full Ex.w0 = false
  /\ run_producer (Ex.scanner FOREVER) (repeat (Ex.env 0) 4) (ProducerThread.Wait 6 3)
       Ex.w0
     = Some (ProducerThread.Loop 6, Ex.w0)
  /\ exists w',
       run_producer (Ex.scanner FOREVER)
         [Ex.env 0; Ex2.env_stopped; Ex2.env_stopped; Ex2.env_stopped]
         (ProducerThread.Wait 6 3) Ex.w0
       = Some (ProducerThread.Returned, w')
       /\ payments_queue w' = [ProducerThread.create_exit_payment].
Proof.
  split; [reflexivity|]. split; [reflexivity|]. split; [lia|]. split; [reflexivity|].
  destruct (waiting_loop (Ex.scanner FOREVER) (Ex.env 0) Ex2.env_stopped 6 1 3 Ex.w0
              eq_refl eq_refl ltac:(lia) eq_refl) as (Hwait & w' & Hstop & Hq & _).
  split; [exact Hwait|]. exists w'. split; [exact Hstop | exact Hq].
Defined.

(** ** The loop over the payments of a cycle, as a whole *)

Lemma marked_agree (s : ProducerThread.self) (c : Z) (w w1 : World) (i : PaymentItem) :
  (forall m, m <> ProducerThread.report_path s c -> files w1 !! m = files w !! m) ->
  marked s c w1 i = marked s c w i.
Proof.
  intros Hagree. unfold marked.
  destruct (payment_file_name (ProducerThread.payments_dir s) (py_str_int c)
              (address i) (type i)) as [m|] eqn:Hm; [|reflexivity].
  unfold isfile. rewrite Hagree; [reflexivity|].
  eapply marker_is_not_report. exact Hm.
Qed.

Lemma loop_steps_agree (s : ProducerThread.self) (c : Z) (w w1 : World)
    (items : list PaymentItem) :
  (forall m, m <> ProducerThread.report_path s c -> files w1 !! m = files w !! m) ->
  loop_steps s c w1 items = loop_steps s c w items
  /\ List.filter (fun i => negb (marked s c w1 i)) items
     = List.filter (fun i => negb (marked s c w i)) items.
Proof.
  intros Hagree. induction items as [|i rest [IH1 IH2]]; [split; reflexivity|].
  cbn [loop_steps List.filter].
  rewrite (marked_agree s c w w1 i Hagree), IH1, IH2. split; reflexivity.
Qed.

Lemma items_loop_runs (s : ProducerThread.self) (env : Env) (c cur : Z)
    (items : list PaymentItem) (w : World) :
  write_ok env = true ->
  Forall has_str_address items ->
  (length (payments_queue w) + length items <= BUF_SIZE)%nat ->
  exists w',
    run_producer s (repeat env (loop_steps s c w items))
      (ProducerThread.Items c cur items) w
    = Some (ProducerThread.Items c cur [], w')
    /\ payments_queue w'
       = payments_queue w ++ List.filter (fun i => negb (marked s c w i)) items
    /\ files w' !! ProducerThread.report_path s c
       = (if items is [] then files w !! ProducerThread.report_path s c
          else Some (default [] (files w !! ProducerThread.report_path s c)
                     ++ List.map (ProducerThread.item_row s) items))
    /\ (forall m, m <> ProducerThread.report_path s c -> files w' !! m = files w !! m)
    /\ dirs w' = dirs w.
Proof.
  intros Hok Hstr. revert w.
  induction Hstr as [|i rest [a Ha] Hrest IH]; intros w Hroom.
  - exists w. cbn. rewrite app_nil_r. repeat split.
  - cbn [length] in Hroom.
    assert (Hm : payment_file_name (ProducerThread.payments_dir s) (py_str_int c)
                   (address i) (type i)
                 = Some (marker_path (ProducerThread.payments_dir s) c a (type i))).
    { rewrite Ha. apply marker_path_eq. }
    set (marker := marker_path (ProducerThread.payments_dir s) c a (type i)) in *.
    set (w1 := writerow (ProducerThread.report_path s c) (ProducerThread.item_row s i) w).
    assert (Hfile : isfile w1 marker = isfile w marker).
    { apply isfile_writerow_ne. intros Heq. symmetry in Heq. revert Heq.
      eapply marker_is_not_report. exact Hm. }
    assert (Hmarked : marked s c w i = isfile w marker).
    { unfold marked. now rewrite Hm. }
    assert (Hagree1 : forall m, m <> ProducerThread.report_path s c ->
                                files w1 !! m = files w !! m).
    { intros m Hne. unfold w1, writerow. cbn. now rewrite lookup_insert_ne. }
    assert (Hrep1 : files w1 !! ProducerThread.report_path s c
                    = Some (default [] (files w !! ProducerThread.report_path s c)
                            ++ [ProducerThread.item_row s i])).
    { unfold w1, writerow. cbn. now rewrite lookup_insert_eq. }
    cbn [loop_steps]. rewrite Hmarked.
    destruct (isfile w marker) eqn:Hmark.
    + (* marked: the warning, then the rest of the loop *)
      set (w2 := logger WARNING
                   "Reward not created for cycle %s address %s amount %f tz %s: Reason payment log already present"
                   [VInt c; address i; payment i; VStr (type i)] w1).
      destruct (IH w2) as (w' & Hrun & Hq & Hrep & Hoff & Hdirs).
      { cbn. lia. }
      assert (Hagree2 : forall m, m <> ProducerThread.report_path s c ->
                                  files w2 !! m = files w !! m) by exact Hagree1.
      destruct (loop_steps_agree s c w w2 rest Hagree2) as [Hsteps Hfilter].
      exists w'. split; [|split; [|split; [|split]]].
      * cbn [Nat.add repeat run_producer ProducerThread.run_step].
        unfold ProducerThread.process_item. rewrite Hok, Hm. cbn [negb].
        fold w1. rewrite Hfile. fold w2. rewrite <- Hsteps. exact Hrun.
      * rewrite Hq, Hfilter. cbn [List.filter]. rewrite Hmarked. reflexivity.
      * rewrite Hrep. cbn [files w2 logger emit] in *.
        destruct rest; [exact Hrep1|].
        change (files w2) with (files w1). rewrite Hrep1.
        cbn [default from_option id List.map]. now rewrite <- app_assoc.
      * intros m Hne. rewrite (Hoff m Hne). apply Hagree1, Hne.
      * exact Hdirs.
    + (* not marked: the put, then the rest of the loop *)
      set (w2 := logger INFO
                   "Reward created for cycle %s address %s amount %f fee %f tz type %s"
                   [VInt c; address i; payment i; fee i; VStr (type i)]
                   (emit (QueuePut c cur i) (put i w1))).
      destruct (IH w2) as (w' & Hrun & Hq & Hrep & Hoff & Hdirs).
      { cbn. rewrite length_app. cbn. lia. }
      assert (Hagree2 : forall m, m <> ProducerThread.report_path s c ->
                                  files w2 !! m = files w !! m) by exact Hagree1.
      destruct (loop_steps_agree s c w w2 rest Hagree2) as [Hsteps Hfilter].
      assert (Hfull : full w1 = false).
      { unfold full. apply Nat.leb_gt. cbn. lia. }
      exists w'. split; [|split; [|split; [|split]]].
      * cbn [Nat.add repeat run_producer ProducerThread.run_step].
        unfold ProducerThread.process_item. rewrite Hok, Hm. cbn [negb].
        fold w1. rewrite Hfile.
        cbn [run_producer ProducerThread.run_step].
        unfold ProducerThread.put_item. rewrite Hfull. fold w2.
        rewrite <- Hsteps. exact Hrun.
      * rewrite Hq, Hfilter. cbn [List.filter]. rewrite Hmarked.
        cbn [negb payments_queue w2 logger emit put]. now rewrite <- app_assoc.
      * rewrite Hrep.
        destruct rest; [exact Hrep1|].
        change (files w2) with (files w1). rewrite Hrep1.
        cbn [default from_option id List.map]. now rewrite <- app_assoc.
      * intros m Hne. rewrite (Hoff m Hne). apply Hagree1, Hne.
      * exact Hdirs.
Qed.

(** X8.  The loop over the payments of a cycle, run to its end with rows
    written without exception, string addresses and room in the queue for
    all of them: it ends at the point after the last payment, the queue
    has grown by exactly the payments whose marker file was absent, in
    their order, the report has grown by one row per payment, marked or
    not, and no other file and no directory has changed. *)
Theorem loop_over_payments (s : ProducerThread.self) (env : Env) (c cur : Z)
    (items : list PaymentItem) (w : World) :
  write_ok env = true ->
  Forall has_str_address items ->
  (length (payments_queue w) + length items <= BUF_SIZE)%nat ->
  exists w',
    run_producer s (repeat env (loop_steps s c w items))
      (ProducerThread.Items c cur items) w
    = Some (ProducerThread.Items c cur [], w')
    /\ payments_queue w'
       = payments_queue w ++ List.filter (fun i => negb (marked s c w i)) items
    /\ files w' !! ProducerThread.report_path s c
       = (if items is [] then files w !! ProducerThread.report_path s c
          else Some (default [] (files w !! ProducerThread.report_path s c)
                     ++ List.map (ProducerThread.item_row s) items))
    /\ (forall m, m <> ProducerThread.report_path s c -> files w' !! m = files w !! m)
    /\ dirs w' = dirs w.
Proof. apply items_loop_runs. Qed.

Lemma loop_over_payments_witness :
  write_ok (Ex.env 0) = true
  /\ Forall has_str_address [Ex.itemA; Ex.itemB]
  /\ (length (payments_queue Ex.w_markedA) + length [Ex.itemA; Ex.itemB] <= BUF_SIZE)%nat
  /\ exists w',
       run_producer (Ex.scanner FOREVER) (repeat (Ex.env 0) 3)
         (ProducerThread.Items 5 11 [Ex.itemA; Ex.itemB]) Ex.w_markedA
       = Some (ProducerThread.Items 5 11 [], w')
       /\ payments_queue w' = [Ex.itemB].
Proof.
  assert (Hstr : Forall has_str_address [Ex.itemA; Ex.itemB]).
  { repeat constructor; eexists; reflexivity. }
  assert (Hroom : (length (payments_queue Ex.w_markedA) + length [Ex.itemA; Ex.itemB]
                   <= BUF_SIZE)%nat) by (cbn; unfold BUF_SIZE; lia).
  split; [reflexivity|]. split; [exact Hstr|]. split; [exact Hroom|].
  destruct (loop_over_payments (Ex.scanner FOREVER) (Ex.env 0) 5 11
              [Ex.itemA; Ex.itemB] Ex.w_markedA eq_refl Hstr Hroom)
    as (w' & Hrun & Hq & _).
  exists w'. split; [exact Hrun | exact Hq].
Defined.

(** ** Marker paths *)

Lemma list_ascii_of_string_inj (a b : string) :
  list_ascii_of_string a = list_ascii_of_string b -> a = b.
Proof.
  intros H. rewrite <- (string_of_list_ascii_of_string a),
              <- (string_of_list_ascii_of_string b). now rewrite H.
Qed.

Lemma marker_path_chars (d : string) (c : Z) (a ty : string) :
  list_ascii_of_string (marker_path d c a ty)
  = list_ascii_of_string d
    ++ "/"%char :: list_ascii_of_string (py_str_int c)
    ++ "/"%char :: list_ascii_of_string a
    ++ "_"%char :: list_ascii_of_string ty ++ list_ascii_of_string ".txt".
Proof.
  unfold marker_path. rewrite !list_ascii_of_string_app. reflexivity.
Qed.

Lemma uint_chars_are_digits (d : Decimal.uint) (ch : ascii) :
  ch ∈ list_ascii_of_string (DecimalString.NilEmpty.string_of_uint d) ->
  ch ∈ list_ascii_of_string "0123456789".
Proof.
  induction d; cbn; intros H; try (apply elem_of_nil in H; contradiction);
    apply elem_of_cons in H; destruct H as [->|H]; auto;
    repeat first [ apply list_elem_of_here | apply list_elem_of_further ].
Qed.

Lemma py_str_int_chars (z : Z) (ch : ascii) :
  ch ∈ list_ascii_of_string (py_str_int z) ->
  ch ∈ list_ascii_of_string "-0123456789".
Proof.
  unfold py_str_int, DecimalString.NilZero.string_of_int.
  assert (Hu : forall d, ch ∈ list_ascii_of_string (DecimalString.NilZero.string_of_uint d) ->
                         ch ∈ list_ascii_of_string "-0123456789").
  { intros d Hd. apply list_elem_of_further.
    destruct d; try (apply (uint_chars_are_digits _ _ Hd)).
    cbn in Hd. apply elem_of_cons in Hd. destruct Hd as [->|Hd].
    - apply list_elem_of_here.
    - apply elem_of_nil in Hd. contradiction. }
  destruct (Z.to_int z) as [d|d]; [exact (Hu d)|].
  change (list_ascii_of_string
            (String "-" (DecimalString.NilZero.string_of_uint d)))
    with ("-"%char :: list_ascii_of_string (DecimalString.NilZero.string_of_uint d)).
  intros H. apply elem_of_cons in H. destruct H as [->|H].
  - apply list_elem_of_here.
  - exact (Hu d H).
Qed.

Lemma py_str_int_no_slash (z : Z) : no_char "/" (py_str_int z).
Proof.
  intros H. apply py_str_int_chars in H. cbn in H.
  repeat (apply elem_of_cons in H; destruct H as [H|H]; [discriminate H|]).
  apply elem_of_nil in H. exact H.
Qed.

Lemma py_str_int_nonempty (z : Z) : py_str_int z <> "".
Proof.
  unfold py_str_int, DecimalString.NilZero.string_of_int,
    DecimalString.NilZero.string_of_uint.
  destruct (Z.to_int z) as [[]|[]]; discriminate.
Qed.

(** [str] of an [int] determines the [int]. *)
Lemma py_str_int_inj (z1 z2 : Z) : py_str_int z1 = py_str_int z2 -> z1 = z2.
Proof.
  assert (Hnn : forall z, Z.to_int z <> Decimal.Pos Decimal.Nil
                          /\ Z.to_int z <> Decimal.Neg Decimal.Nil).
  { intros [|p|p]; cbn; split; try discriminate; intros [= H];
      exact (DecimalPos.Unsigned.to_uint_nonnil p H). }
  unfold py_str_int. intros H.
  apply (f_equal DecimalString.NilZero.int_of_string) in H.
  destruct (Hnn z1) as [Ha Hb], (Hnn z2) as [Hc Hd].
  rewrite !DecimalString.NilZero.isi in H by assumption.
  injection H as H. apply DecimalZ.to_int_inj, H.
Qed.

(** X9.  For addresses without an underscore, the marker path determines
    the key: two keys (cycle, address, type) under the same payments
    directory have the same marker file only if they are the same key. *)
Theorem payment_file_name_injective (d : string) (c1 c2 : Z) (a1 a2 t1 t2 : string) :
  no_char "_" a1 ->
  no_char "_" a2 ->
  payment_file_name d (py_str_int c1) (VStr a1) t1
  = payment_file_name d (py_str_int c2) (VStr a2) t2 ->
  c1 = c2 /\ a1 = a2 /\ t1 = t2.
Proof.
  intros Ha1 Ha2 H. rewrite !marker_path_eq in H. injection H as H.
  apply (f_equal list_ascii_of_string) in H. rewrite !marker_path_chars in H.
  apply app_inv_head in H. injection H as H.
  apply not_elem_of_app_cons_inv_l in H;
    [|apply py_str_int_no_slash|apply py_str_int_no_slash].
  destruct H as (Hc & _ & H).
  apply not_elem_of_app_cons_inv_l in H; [|exact Ha2|exact Ha1].
  destruct H as (Ha & _ & Ht).
  apply app_inv_tail in Ht.
  split; [|split].
  - apply py_str_int_inj, list_ascii_of_string_inj, Hc.
  - apply list_ascii_of_string_inj, Ha.
  - apply list_ascii_of_string_inj, Ht.
Qed.

Lemma payment_file_name_injective_witness :
  no_char "_" "addrA"
  /\ payment_file_name "payments" (py_str_int 5) (VStr "addrA") "D"
     = payment_file_name "payments" (py_str_int 5) (VStr "addrA") "D"
  /\ (5 = 5 /\ "addrA" = "addrA" /\ "D" = "D").
Proof.
  assert (Ha : no_char "_" "addrA").
  { unfold no_char. cbn. intros H.
    repeat (apply elem_of_cons in H; destruct H as [H|H]; [discriminate H|]).
    apply elem_of_nil in H. exact H. }
  split; [exact Ha|]. split; [reflexivity|].
  exact (payment_file_name_injective "payments" 5 5 "addrA" "addrA" "D" "D"
           Ha Ha eq_refl).
Defined.

Lemma elem_of_rev_1 {A} (x : A) (l : list A) : x ∈ rev l -> x ∈ l.
Proof. rewrite !list_elem_of_In. apply in_rev. Qed.

Lemma elem_of_rev_2 {A} (x : A) (l : list A) : x ∈ l -> x ∈ rev l.
Proof. rewrite !list_elem_of_In. apply in_rev. Qed.

Lemma drop_tail_rev_app (l r : list ascii) :
  "/"%char ∉ l -> drop_tail_rev (l ++ "/"%char :: r) = "/"%char :: r.
Proof.
  induction l as [|x l IH]; intros Hl; cbn.
  - reflexivity.
  - destruct (Ascii.eqb_spec x "/"%char) as [->|Hne].
    + exfalso. apply Hl. apply list_elem_of_here.
    + apply IH. intros Hin. apply Hl. now apply list_elem_of_further.
Qed.

Lemma strip_slashes_rev_head (x : ascii) (l : list ascii) :
  x <> "/"%char -> strip_slashes_rev (x :: l) = x :: l.
Proof.
  intros Hne. cbn. destruct (Ascii.eqb_spec x "/"%char); [contradiction | reflexivity].
Qed.

Lemma dirname_marker_path (d : string) (c : Z) (a ty : string) :
  no_char "/" a ->
  no_char "/" ty ->
  dirname (marker_path d c a ty) = payment_dir_c d (py_str_int c).
Proof.
  intros Ha Hty.
  unfold dirname. rewrite marker_path_chars.
  set (tail := list_ascii_of_string a
               ++ "_"%char :: list_ascii_of_string ty ++ list_ascii_of_string ".txt").
  set (cs := list_ascii_of_string (py_str_int c)).
  replace (list_ascii_of_string d ++ "/"%char :: cs ++ "/"%char :: tail)
    with ((list_ascii_of_string d ++ "/"%char :: cs) ++ "/"%char :: tail)
    by (rewrite <- app_assoc; reflexivity).
  rewrite rev_app_distr. cbn [rev]. rewrite <- app_assoc. cbn [app].
  assert (Htail : "/"%char ∉ rev tail).
  { intros Hin. apply elem_of_rev_1 in Hin. unfold tail in Hin.
    apply elem_of_app in Hin. destruct Hin as [Hin|Hin]; [exact (Ha Hin)|].
    apply elem_of_cons in Hin. destruct Hin as [Hin|Hin]; [discriminate Hin|].
    apply elem_of_app in Hin. destruct Hin as [Hin|Hin]; [exact (Hty Hin)|].
    cbn in Hin.
    repeat (apply elem_of_cons in Hin; destruct Hin as [Hin|Hin]; [discriminate Hin|]).
    apply elem_of_nil in Hin. exact Hin. }
  rewrite (drop_tail_rev_app _ _ Htail).
  assert (Hcs : exists x xs, rev cs = x :: xs /\ x <> "/"%char).
  { destruct (rev cs) as [|x xs] eqn:Hrev.
    - exfalso. apply (py_str_int_nonempty c). apply list_ascii_of_string_inj.
      fold cs. rewrite <- (rev_involutive cs), Hrev. reflexivity.
    - exists x, xs. split; [reflexivity|]. intros ->.
      apply (py_str_int_no_slash c). fold cs. apply elem_of_rev_1. rewrite Hrev.
      apply list_elem_of_here. }
  destruct Hcs as (x & xs & Hrev & Hx).
  rewrite rev_app_distr. cbn [rev]. rewrite <- app_assoc. cbn [app].
  cbn [strip_slashes_rev]. cbn [Ascii.eqb Bool.eqb].
  rewrite Hrev. cbn [app]. rewrite (strip_slashes_rev_head x _ Hx).
  change (rev (xs ++ "/"%char :: rev (list_ascii_of_string d)) ++ [x])
    with (rev ((x :: xs) ++ "/"%char :: rev (list_ascii_of_string d))).
  rewrite <- Hrev.
  rewrite rev_app_distr. cbn [rev]. rewrite !rev_involutive, <- app_assoc. cbn [app].
  apply list_ascii_of_string_inj. rewrite list_ascii_of_string_of_list_ascii.
  unfold payment_dir_c. rewrite !list_ascii_of_string_app. reflexivity.
Qed.

Ltac solve_no_char :=
  let H := fresh in
  unfold no_char; cbn; intros H;
  repeat (apply elem_of_cons in H; destruct H as [H|H]; [discriminate H|]);
  apply elem_of_nil in H; exact H.

(** X10.  For an address and a type without a slash, [os.path.dirname] of
    the marker path is the cycle's directory under the payments directory,
    the path [payment_dir_c] builds and the scanner tests at line 72. *)
Theorem dirname_of_marker_is_payment_dir (d : string) (c : Z) (a ty m : string) :
  no_char "/" a ->
  no_char "/" ty ->
  payment_file_name d (py_str_int c) (VStr a) ty = Some m ->
  dirname m = payment_dir_c d (py_str_int c).
Proof.
  intros Ha Hty Hm. rewrite marker_path_eq in Hm. injection Hm as <-.
  now apply dirname_marker_path.
Qed.

Lemma dirname_of_marker_is_payment_dir_witness :
  no_char "/" "addrA"
  /\ no_char "/" "D"
  /\ payment_file_name "payments" (py_str_int 5) (VStr "addrA") "D"
     = Some "payments/5/addrA_D.txt"
  /\ dirname "payments/5/addrA_D.txt" = payment_dir_c "payments" (py_str_int 5).
Proof.
  assert (Ha : no_char "/" "addrA") by solve_no_char.
  assert (Hd : no_char "/" "D") by solve_no_char.
  split; [exact Ha|]. split; [exact Hd|]. split; [reflexivity|].
  exact (dirname_of_marker_is_payment_dir "payments" 5 "addrA" "D" _ Ha Hd eq_refl).
Defined.

(** ** A paid cycle *)

Lemma makedirs_chain_head (n : nat) (p : string) : p ∈ makedirs_chain n p.
Proof.
  destruct n; cbn; [apply list_elem_of_here|].
  destruct (String.eqb (dirname p) "" || String.eqb (dirname p) p)%bool;
    apply list_elem_of_here.
Qed.

(** X11.  Once an executor has paid one payment of a cycle (exit status
    zero, marker created, address and type without a slash, no regular
    file standing at the directory's path), the cycle's directory under
    the payments directory exists; and in any world that still has the
    directories of that moment, a scanner with the same payments directory
    that comes to this cycle skips it: it moves to the next cycle without
    enqueueing or writing anything, so the other payments of the cycle are
    not made. *)
Theorem paid_cycle_is_skipped (s : ProducerThread.self) (c : ConsumerThread.self)
    (env env' : Env) (item : PaymentItem) (a : string) (lvl cur : Z) (w : World) :
  ProducerThread.payments_dir s = ConsumerThread.payments_dir c ->
  address item = VStr a ->
  no_char "/" a ->
  no_char "/" (type item) ->
  returncode env = 0 ->
  write_ok env = true ->
  isfile w (payment_dir_c (ConsumerThread.payments_dir c) (py_str_int (cycle item)))
  = false ->
  is_running env' = true ->
  get_current_level env' = Some (lvl, cur) ->
  exists w1,
    ConsumerThread.run_step c env (ConsumerThread.Waiting item) w
    = Some (ConsumerThread.Loop, w1)
    /\ isdir w1 (payment_dir_c (ConsumerThread.payments_dir c)
                               (py_str_int (cycle item))) = true
    /\ forall w2,
         dirs w1 ⊆ dirs w2 ->
         exists w3,
           ProducerThread.run_step s env' (ProducerThread.Loop (cycle item)) w2
           = Some (ProducerThread.Loop (cycle item + 1), w3)
           /\ payments_queue w3 = payments_queue w2
           /\ files w3 = files w2.
Proof.
  intros Hdirs Haddr Ha Hty Hrc Hok Hnofile Hrun Hlvl.
  set (pd := payment_dir_c (ConsumerThread.payments_dir c) (py_str_int (cycle item))).
  cbn [ConsumerThread.run_step]. unfold ConsumerThread.finish.
  rewrite Hrc, Haddr, marker_path_eq, Hok. cbn [Z.eqb negb].
  rewrite (dirname_marker_path _ _ _ _ Ha Hty). fold pd.
  eexists. split; [reflexivity|].
  assert (Hpd : isdir
                  (logger INFO "Reward paid for cycle %s address %s amount %f tz"
                     [VInt (cycle item); VStr a; payment item]
                     (emit (WriteMarker
                              (marker_path (ConsumerThread.payments_dir c) (cycle item) a
                                 (type item)))
                        (open_w
                           (marker_path (ConsumerThread.payments_dir c) (cycle item) a
                              (type item))
                           (if negb (exists_path w pd) then makedirs pd w else w)))) pd
                = true).
  { unfold isdir. apply bool_decide_eq_true.
    destruct (exists_path w pd) eqn:Hex; cbn [negb dirs logger emit open_w makedirs].
    - unfold exists_path in Hex. fold pd in Hnofile. rewrite Hnofile, orb_false_r in Hex.
      unfold isdir in Hex. apply bool_decide_eq_true in Hex. exact Hex.
    - apply elem_of_union_r, elem_of_list_to_set, makedirs_chain_head. }
  split; [exact Hpd|].
  intros w2 Hsub. cbn [ProducerThread.run_step]. unfold ProducerThread.scan.
  rewrite Hrun, Hlvl, Hdirs. fold pd.
  assert (Hpd2 : isdir w2 pd = true).
  { unfold isdir in *. apply bool_decide_eq_true. apply bool_decide_eq_true in Hpd.
    apply Hsub, Hpd. }
  rewrite Hpd2. eexists. split; [reflexivity|]. split; reflexivity.
Qed.

Lemma paid_cycle_is_skipped_witness :
  ProducerThread.payments_dir (Ex.scanner FOREVER) = ConsumerThread.payments_dir Ex.executor
  /\ address Ex.itemA = VStr "addrA"
  /\ no_char "/" "addrA"
  /\ no_char "/" (type Ex.itemA)
  /\ returncode (Ex.env 0) = 0
  /\ write_ok (Ex.env 0) = true
  /\ isfile Ex.w0 (payment_dir_c "payments" (py_str_int 5)) = false
  /\ exists w1,
       ConsumerThread.run_step Ex.executor (Ex.env 0) (ConsumerThread.Waiting Ex.itemA)
         Ex.w0
       = Some (ConsumerThread.Loop, w1)
       /\ exists w3,
            ProducerThread.run_step (Ex.scanner FOREVER) (Ex.env 0)
              (ProducerThread.Loop 5) w1
            = Some (ProducerThread.Loop 6, w3)
            /\ payments_queue w3 = payments_queue w1.
Proof.
  assert (Ha : no_char "/" "addrA") by solve_no_char.
  assert (Hd : no_char "/" (type Ex.itemA)) by solve_no_char.
  assert (Hf : isfile Ex.w0 (payment_dir_c "payments" (py_str_int 5)) = false)
    by (vm_compute; reflexivity).
  split; [reflexivity|]. split; [reflexivity|]. split; [exact Ha|]. split; [exact Hd|].
  split; [reflexivity|]. split; [reflexivity|]. split; [exact Hf|].
  destruct (paid_cycle_is_skipped (Ex.scanner FOREVER) Ex.executor (Ex.env 0) (Ex.env 0)
              Ex.itemA "addrA" 1500 11 Ex.w0 eq_refl eq_refl Ha Hd eq_refl eq_refl Hf
              eq_refl eq_refl) as (w1 & Hstep & _ & Hskip).
  exists w1. split; [exact Hstep|].
  destruct (Hskip w1 ltac:(reflexivity)) as (w3 & Hscan & Hq & _).
  exists w3. split; [exact Hscan | exact Hq].
Defined.

(** ** Nothing is ever deleted *)

Lemma producer_step_keeps_files (s : ProducerThread.self) (env : Env)
    (p p' : ProducerThread.pc) (w w' : World) :
  ProducerThread.run_step s env p w = Some (p', w') ->
  (forall m, is_Some (files w !! m) -> is_Some (files w' !! m))
  /\ dirs w ⊆ dirs w'.
Proof.
  intros Hstep.
  destruct p as [|c|c cur [|item rest]|c cur item rest|why|c [|n]| |];
    cbn [ProducerThread.run_step] in Hstep;
    unfold ProducerThread.start, ProducerThread.scan, ProducerThread.process_cycle,
      ProducerThread.finish_cycle, ProducerThread.process_item,
      ProducerThread.put_item, ProducerThread.put_exit, ProducerThread.on_error
      in Hstep;
    repeat case_match; simplify_eq;
    cbn [files dirs logger emit put writerow open_w makedirs];
    (split;
     [ intros m Hm; rewrite ?lookup_insert_is_Some'; auto 10
     | set_solver ]).
Qed.

Lemma consumer_step_keeps_files (c : ConsumerThread.self) (env : Env)
    (p p' : ConsumerThread.pc) (w w' : World) :
  ConsumerThread.run_step c env p w = Some (p', w') ->
  (forall m, is_Some (files w !! m) -> is_Some (files w' !! m))
  /\ dirs w ⊆ dirs w'.
Proof.
  intros Hstep.
  destruct p as [| |item|]; cbn [ConsumerThread.run_step] in Hstep;
    unfold ConsumerThread.get, ConsumerThread.finish, ConsumerThread.on_error in Hstep;
    repeat case_match; simplify_eq;
    cbn [files dirs logger emit put writerow open_w makedirs];
    (split;
     [ intros m Hm; rewrite ?lookup_insert_is_Some'; auto 10
     | set_solver ]).
Qed.

(** X12.  The threads never delete anything: in every state they can
    reach, every file and every directory of the initial file system is
    still there, so a marker that exists is never removed by the program. *)
Theorem files_and_directories_persist (t : Threads) (fs : gmap string (list Row))
    (ds : gset string) (st : System) :
  reachable t fs ds st ->
  (forall m, is_Some (fs !! m) -> is_Some (files (world st) !! m))
  /\ ds ⊆ dirs (world st).
Proof.
  induction 1 as [|st st' Hreach [IHf IHd] Hstep].
  - split; [auto | reflexivity].
  - destruct Hstep as [env st p' w' Hrun | env st i c p p' w' Hc Hp Hrun]; cbn.
    + destruct (producer_step_keeps_files _ _ _ _ _ _ Hrun) as [Hf Hd].
      split; [auto | set_solver].
    + destruct (consumer_step_keeps_files _ _ _ _ _ _ Hrun) as [Hf Hd].
      split; [auto | set_solver].
Qed.

Lemma files_and_directories_persist_witness :
  exists st,
    reachable (Ex.threads FOREVER) (files Ex.w_markedA) (dirs Ex.w_markedA) st
    /\ producer st = ProducerThread.Loop 6
    /\ is_Some (files Ex.w_markedA !! "payments/5/addrA_D.txt")
    /\ is_Some (files (world st) !! "payments/5/addrA_D.txt").
Proof.
  destruct (sys_after (Ex.threads FOREVER) (repeat (Ex.env 0) 2) (files Ex.w_markedA)
              (dirs Ex.w_markedA)) as [st|] eqn:Hst;
    [|vm_compute in Hst; discriminate Hst].
  exists st.
  pose proof (reachable_sys_after _ _ _ _ _ Hst) as Hreach.
  assert (Hm : is_Some (files Ex.w_markedA !! "payments/5/addrA_D.txt")).
  { exists []. vm_compute. reflexivity. }
  split; [exact Hreach|]. split.
  - vm_compute in Hst. injection Hst as <-. reflexivity.
  - split; [exact Hm|].
    destruct (files_and_directories_persist (Ex.threads FOREVER) _ _ st Hreach)
      as [Hfiles _].
    apply Hfiles, Hm.
Defined.

(** ** A marker is written only after the transfer was launched *)

Lemma transfer_launched_app (t : Threads) (tr es : list Event) c i :
  transfer_launched t tr c i -> transfer_launched t (tr ++ es) c i.
Proof.
  intros (Hc & Hty & Hget & Hpopen).
  repeat split; auto; apply in_or_app; left; assumption.
Qed.

Lemma markers_justified_emit (t : Threads) (e : Event) (w : World) :
  markers_justified t (trace w) ->
  (forall m, e = WriteMarker m -> marker_justified t (trace w) m) ->
  markers_justified t (trace (emit e w)).
Proof. intros Hw He. unfold emit. cbn. now constructor. Qed.

Lemma markers_justified_logger (t : Threads) lvl msg args (w : World) :
  markers_justified t (trace w) ->
  markers_justified t (trace (logger lvl msg args w)).
Proof. intros Hw. apply markers_justified_emit; [exact Hw | discriminate]. Qed.

Ltac justified_trace :=
  repeat first
    [ assumption
    | apply markers_justified_logger
    | apply markers_justified_emit; [|discriminate]
    | progress cbn [trace put writerow open_w makedirs] ].

Lemma producer_step_trace (s : ProducerThread.self) (env : Env)
    (p p' : ProducerThread.pc) (w w' : World) (t : Threads) :
  ProducerThread.run_step s env p w = Some (p', w') ->
  (exists es, trace w' = trace w ++ es)
  /\ (markers_justified t (trace w) -> markers_justified t (trace w')).
Proof.
  intros Hstep.
  destruct p as [|c|c cur [|item rest]|c cur item rest|why|c [|n]| |];
    cbn [ProducerThread.run_step] in Hstep;
    unfold ProducerThread.start, ProducerThread.scan, ProducerThread.process_cycle,
      ProducerThread.finish_cycle, ProducerThread.process_item,
      ProducerThread.put_item, ProducerThread.put_exit, ProducerThread.on_error
      in Hstep;
    repeat case_match; simplify_eq;
    (split; [eexists; solve_trace | intros Hw; justified_trace]).
Qed.

Lemma consumer_step_trace (c : ConsumerThread.self) (env : Env)
    (p p' : ConsumerThread.pc) (w w' : World) :
  ConsumerThread.run_step c env p w = Some (p', w') ->
  exists es, trace w' = trace w ++ es.
Proof.
  intros Hstep.
  destruct p as [| |item|]; cbn [ConsumerThread.run_step] in Hstep;
    unfold ConsumerThread.get, ConsumerThread.finish, ConsumerThread.on_error in Hstep;
    repeat case_match; simplify_eq; eexists; solve_trace.
Qed.

Lemma consumer_step_justified (t : Threads) (c : ConsumerThread.self) (env : Env)
    (p p' : ConsumerThread.pc) (w w' : World) :
  In c (the_consumers t) ->
  (forall i, p = ConsumerThread.Waiting i -> transfer_launched t (trace w) c i) ->
  markers_justified t (trace w) ->
  ConsumerThread.run_step c env p w = Some (p', w') ->
  markers_justified t (trace w')
  /\ (forall i, p' = ConsumerThread.Waiting i -> transfer_launched t (trace w') c i).
Proof.
  intros Hc Hwait Hw Hstep.
  destruct p as [| |item|]; cbn [ConsumerThread.run_step] in Hstep;
    unfold ConsumerThread.get, ConsumerThread.finish, ConsumerThread.on_error in Hstep;
    repeat case_match; simplify_eq; split.
  all: try (intros ? Hd; discriminate Hd).
  all: try (justified_trace; fail).
  - (* the get of a payment: the command is launched *)
    intros i [= <-]. cbn [trace logger emit].
    repeat split.
    + exact Hc.
    + match goal with H : String.eqb _ _ = false |- _ => apply String.eqb_neq in H; exact H end.
    + rewrite !in_app_iff. left. left. left. right. left. reflexivity.
    + rewrite !in_app_iff. right. left. reflexivity.
  - (* the marker, after makedirs *)
    apply markers_justified_logger. apply markers_justified_emit.
    + justified_trace.
    + intros m [= <-]. exists c, item. split; [|assumption].
      cbn [trace put writerow open_w makedirs]. now apply Hwait.
  - (* the marker, the directory being there *)
    apply markers_justified_logger. apply markers_justified_emit.
    + justified_trace.
    + intros m [= <-]. exists c, item. split; [|assumption].
      cbn [trace put writerow open_w makedirs]. now apply Hwait.
Qed.

Lemma markers_justified_split (t : Threads) (tr : list Event) :
  markers_justified t tr ->
  forall tr1 tr2 m, tr = tr1 ++ WriteMarker m :: tr2 -> marker_justified t tr1 m.
Proof.
  induction 1 as [|tr e Htr IH He]; intros tr1 tr2 m Heq.
  - destruct tr1; discriminate Heq.
  - destruct tr2 as [|x tr2 _] using rev_ind.
    + apply app_inj_tail in Heq. destruct Heq as [-> ->]. now apply He.
    + change (tr1 ++ WriteMarker m :: tr2 ++ [x])
        with (tr1 ++ (WriteMarker m :: tr2) ++ [x]) in Heq.
      rewrite app_assoc in Heq. apply app_inj_tail in Heq. destruct Heq as [-> _].
      eapply IH. reflexivity.
Qed.

Lemma initial_consumers_loop (cs : list ConsumerThread.self) (n : nat)
    (p : ConsumerThread.pc) :
  List.map (fun _ => ConsumerThread.Loop) cs !! n = Some p -> p = ConsumerThread.Loop.
Proof.
  revert n. induction cs as [|c cs IH]; intros [|n] H; cbn in H; try discriminate.
  - now injection H.
  - eapply IH. exact H.
Qed.

Lemma reachable_markers_justified (t : Threads) fs ds (st : System) :
  reachable t fs ds st ->
  markers_justified t (trace (world st)) /\ waiting_justified t st.
Proof.
  induction 1 as [|st st' Hreach [IHm IHw] Hstep].
  - split; [constructor|]. intros n c i _ Hp. cbn in Hp.
    apply initial_consumers_loop in Hp. discriminate Hp.
  - destruct Hstep as [env st p' w' Hrun | env st n0 c p p' w' Hc Hp Hrun].
    + destruct (producer_step_trace _ _ _ _ _ _ t Hrun) as [[es Hes] Hm].
      split; [apply Hm, IHm|].
      intros n c i Hc Hp. cbn in *. rewrite Hes. apply transfer_launched_app.
      eapply IHw; eauto.
    + assert (Hin : In c (the_consumers t)).
      { apply list_elem_of_In. eapply list_elem_of_lookup_2. exact Hc. }
      destruct (consumer_step_justified t c env p p' (world st) w' Hin) as [Hm Hw'];
        [intros i ->; eapply IHw; eauto | exact IHm | exact Hrun |].
      destruct (consumer_step_trace _ _ _ _ _ _ Hrun) as [es Hes].
      split; [exact Hm|].
      intros n c1 i Hc1 Hp1. cbn in *.
      destruct (decide (n = n0)) as [->|Hne].
      * rewrite list_lookup_insert_eq in Hp1 by (eapply lookup_lt_Some; exact Hp).
        simplify_eq. now apply Hw'.
      * rewrite list_lookup_insert_ne in Hp1 by congruence.
        rewrite Hes. apply transfer_launched_app. eapply IHw; eauto.
Qed.

(** X13.  In every state the threads can reach, each marker write in the
    trace comes after the events that justify it: before it, an executor
    of the program took a payment that is not an exit payment off the
    queue and launched the transfer command for it, and the path written
    is the marker path of that payment under that executor's payments
    directory.  No marker is written for an exit payment or without a
    transfer having been started. *)
Theorem marker_only_after_transfer (t : Threads) (fs : gmap string (list Row))
    (ds : gset string) (st : System) (tr1 tr2 : list Event) (m : string) :
  reachable t fs ds st ->
  trace (world st) = tr1 ++ WriteMarker m :: tr2 ->
  marker_justified t tr1 m.
Proof.
  intros Hreach Heq.
  destruct (reachable_markers_justified t fs ds st Hreach) as [Hm _].
  eapply markers_justified_split; eauto.
Qed.

Lemma marker_only_after_transfer_witness :
  exists st tr1 tr2,
    reachable (Ex.threads FOREVER) ∅ ∅ st
    /\ trace (world st) = tr1 ++ WriteMarker "payments/5/addrA_D.txt" :: tr2
    /\ marker_justified (Ex.threads FOREVER) tr1 "payments/5/addrA_D.txt".
Proof.
  destruct (sys_after_both (Ex.threads FOREVER) (repeat (Ex.env 0) 4)
              (repeat (Ex.env 0) 3) ∅ ∅) as [st|] eqn:Hst;
    [|vm_compute in Hst; discriminate Hst].
  pose proof (reachable_sys_after_both _ _ _ _ _ _ Hst) as Hreach.
  exists st, (firstn 11 (trace (world st))), (skipn 12 (trace (world st))).
  assert (Heq : trace (world st)
                = firstn 11 (trace (world st))
                  ++ WriteMarker "payments/5/addrA_D.txt" :: skipn 12 (trace (world st))).
  { vm_compute in Hst. injection Hst as <-. reflexivity. }
  split; [exact Hreach|]. split; [exact Heq|].
  exact (marker_only_after_transfer (Ex.threads FOREVER) ∅ ∅ st _ _ _ Hreach Heq).
Defined.

(** ** What [main] starts *)

(** X14.  When [main] raises nothing it has started the life cycle
    (locking unless in dry run), then exactly one producer, then the
    consumers, one unless in dry run; the producer and every consumer
    work on the same payments directory, the expanded [-P] argument, so
    the marker an executor writes is looked for by the scanner in the same
    place, and every consumer pays with the key given on the command
    line. *)
Theorem main_threads_share_payments_dir (cfg : Configuration) (env : StartupEnv)
    (a : Args) :
  raised (main cfg env a) = None ->
  exists p cs,
    actions (main cfg env a)
    = LifeCycleStart (negb (dry_run a)) :: StartProducer p :: List.map StartConsumer cs
    /\ started_producers (main cfg env a) = [p]
    /\ started_consumers (main cfg env a) = cs
    /\ length cs = (if dry_run a then O else 1%nat)
    /\ ProducerThread.payments_dir p = expanduser env (args_payments_dir a)
    /\ forall c, In c cs ->
         ConsumerThread.payments_dir c = ProducerThread.payments_dir p
         /\ ConsumerThread.key_name c = key a.
Proof.
  unfold main. intros Hraised.
  repeat case_match; cbn [raised] in Hraised; try discriminate Hraised.
  all: eexists _, _; split; [reflexivity|].
  all: cbn [actions started_producers started_consumers app omap list_omap List.map
            seq NB_CONSUMERS].
  all: split; [reflexivity|]; split; [reflexivity|]; split; [reflexivity|].
  all: split; [reflexivity|].
  all: intros c Hc; cbn in Hc; try contradiction.
  all: destruct Hc as [<-|[]]; split; reflexivity.
Qed.

Lemma main_threads_share_payments_dir_witness :
  raised (main (Ex.cfg Ex.shares_one) Ex.startup_env (Ex.args false)) = None
  /\ exists p c,
       started_producers (main (Ex.cfg Ex.shares_one) Ex.startup_env (Ex.args false))
       = [p]
       /\ started_consumers (main (Ex.cfg Ex.shares_one) Ex.startup_env (Ex.args false))
          = [c]
       /\ ProducerThread.payments_dir p = "payments"
       /\ ConsumerThread.payments_dir c = "payments".
Proof.
  split; [reflexivity|].
  destruct (main_threads_share_payments_dir (Ex.cfg Ex.shares_one) Ex.startup_env
              (Ex.args false) eq_refl) as (p & cs & _ & Hp & Hcs & Hlen & Hdir & Hsame).
  destruct cs as [|c [|c' cs]]; cbn in Hlen; try discriminate Hlen.
  exists p, c. split; [exact Hp|]. split; [exact Hcs|]. split; [exact Hdir|].
  destruct (Hsame c (or_introl eq_refl)) as [Hc _]. rewrite Hc. exact Hdir.
Defined.

(** ** The cycle to start from *)




(** X16.  Without [-C], an entry of the payments directory that is not
    an integer makes [main] raise a [ValueError] after the share tables
    have been accepted and the life cycle has been started: neither the
    producer nor a consumer is started. *)
Theorem stray_entry_aborts_startup (cfg : Configuration) (env : StartupEnv) (a : Args)
    (nc : NetworkConfig) (mode : RunMode) (names : list string) (name : string) :
  assoc (network a) (network_config_map cfg) = Some nc ->
  RunMode_of (args_run_mode a) = Some mode ->
  validate_map_share_sum (founders_map cfg) "founders map" = None ->
  validate_map_share_sum (owners_map cfg) "owners map" = None ->
  initial_cycle a = None ->
  listdir_payments env = Some names ->
  In name names ->
  py_int env name = None ->
  raised (main cfg env a) = Some ValueError
  /\ actions (main cfg env a) = [LifeCycleStart (negb (dry_run a))]
  /\ started_producers (main cfg env a) = []
  /\ started_consumers (main cfg env a) = [].
Proof.
  intros Hnet Hmode Hf Ho Hnone Hlist Hin Hbad.
  assert (Hmap : mapM (py_int env) names = None).
  { apply mapM_None, Exists_exists. exists name. split; [|exact Hbad].
    apply list_elem_of_In, Hin. }
  unfold main. rewrite Hnet, Hmode, Hf, Ho.
  unfold resolve_initial_cycle. rewrite Hnone, Hlist, Hmap.
  repeat split.
Qed.

Lemma stray_entry_aborts_startup_witness :
  assoc (network Ex3.args_resume) (network_config_map (Ex.cfg Ex.shares_one))
  = Some Ex.net
  /\ RunMode_of (args_run_mode Ex3.args_resume) = Some FOREVER
  /\ In "notes.txt" ["4"; "notes.txt"]
  /\ py_int Ex3.env_stray "notes.txt" = None
  /\ raised (main (Ex.cfg Ex.shares_one) Ex3.env_stray Ex3.args_resume)
     = Some ValueError.
Proof.
  split; [reflexivity|]. split; [reflexivity|].
  split; [right; left; reflexivity|]. split; [reflexivity|].
  destruct (stray_entry_aborts_startup (Ex.cfg Ex.shares_one) Ex3.env_stray
              Ex3.args_resume Ex.net FOREVER ["4"; "notes.txt"] "notes.txt"
              eq_refl eq_refl ltac:(vm_compute; reflexivity)
              ltac:(vm_compute; reflexivity) eq_refl eq_refl
              ltac:(right; left; reflexivity) eq_refl) as (Hraised & _).
  exact Hraised.
Defined.

(** ** One cycle in run mode ONETIME, from the pass that opens the report
    to the return of the scanner *)

Lemma pass_entering_items (s : ProducerThread.self) (env : Env) (c cur : Z)
    (items : list PaymentItem) (w w1 : World) :
  ProducerThread.run_step s env (ProducerThread.Loop c) w
  = Some (ProducerThread.Items c cur items, w1) ->
  payments_queue w1 = payments_queue w
  /\ (forall m, m <> ProducerThread.report_path s c -> files w1 !! m = files w !! m)
  /\ exists total,
       files w1 !! ProducerThread.report_path s c
       = Some [ProducerThread.header_row; ProducerThread.baker_row s total].
Proof.
  intros Hstep.
  cbn [ProducerThread.run_step] in Hstep.
  unfold ProducerThread.scan, ProducerThread.process_cycle, ProducerThread.on_error
    in Hstep.
  repeat case_match; simplify_eq.
  all: split; [reflexivity|].
  all: split; [intros m Hm; cbn [files logger emit writerow open_w makedirs];
               rewrite ?lookup_insert_ne by congruence; reflexivity|].
  all: eexists; cbn [files logger emit writerow open_w makedirs].
  all: rewrite !lookup_insert_eq; reflexivity.
Qed.

(** X17.  In run mode ONETIME, a pass of the loop that enters the
    payments of a cycle, with rows written and the report closed without
    exception, string addresses and room in the queue for the payments
    and the exit payment, runs to the return of the thread: the queue has
    grown by the payments whose marker was absent, in their order,
    followed by one exit payment, the report holds the header row, the
    baker row and one row per payment, and no other file has changed. *)
Theorem onetime_cycle_end_to_end (s : ProducerThread.self) (env : Env) (c cur : Z)
    (items : list PaymentItem) (w w1 : World) :
  ProducerThread.run_mode s = ONETIME ->
  write_ok env = true ->
  close_ok env = true ->
  ProducerThread.run_step s env (ProducerThread.Loop c) w
  = Some (ProducerThread.Items c cur items, w1) ->
  Forall has_str_address items ->
  (length (payments_queue w) + length items < BUF_SIZE)%nat ->
  exists w' total,
    run_producer s (repeat env (1 + (loop_steps s c w items + 2)))
      (ProducerThread.Loop c) w
    = Some (ProducerThread.Returned, w')
    /\ payments_queue w'
       = payments_queue w
         ++ List.filter (fun i => negb (marked s c w i)) items
         ++ [ProducerThread.create_exit_payment]
    /\ files w' !! ProducerThread.report_path s c
       = Some (ProducerThread.header_row :: ProducerThread.baker_row s total
               :: List.map (ProducerThread.item_row s) items)
    /\ forall m, m <> ProducerThread.report_path s c -> files w' !! m = files w !! m.
Proof.
  intros Hmode Hok Hclose Hpass Hstr Hroom.
  destruct (pass_entering_items s env c cur items w w1 Hpass)
    as (Hq1 & Hoff1 & total & Hrep1).
  destruct (loop_steps_agree s c w w1 items Hoff1) as [Hsteps Hfilter].
  destruct (items_loop_runs s env c cur items w1 Hok Hstr) as
    (w2 & Hloop & Hq2 & Hrep2 & Hoff2 & _).
  { rewrite Hq1. lia. }
  rewrite Hsteps in Hloop. rewrite Hfilter, Hq1 in Hq2.
  assert (Hfull : full
                    (logger INFO "Run mode ONETIME satisfied. Killing the thread ..." []
                       (logger INFO "Reward creation done for cycle %s" [VInt c] w2))
                  = false).
  { unfold full. apply Nat.leb_gt. cbn [payments_queue logger emit]. rewrite Hq2.
    rewrite length_app.
    pose proof (filter_length_le (fun i => negb (marked s c w i)) items). lia. }
  eexists _, total. split; [|split; [|split]].
  - cbn [Nat.add repeat run_producer]. rewrite Hpass.
    rewrite repeat_app, run_producer_app, Hloop.
    cbn [repeat run_producer ProducerThread.run_step].
    unfold ProducerThread.finish_cycle. rewrite Hclose, Hmode. cbn [negb RunMode_eqb].
    cbn [run_producer ProducerThread.run_step].
    unfold ProducerThread.put_exit. rewrite Hfull. reflexivity.
  - cbn [payments_queue logger emit put]. rewrite Hq2, <- app_assoc. reflexivity.
  - cbn [files logger emit put]. rewrite Hrep2, Hrep1.
    destruct items; reflexivity.
  - intros m Hm. cbn [files logger emit put]. rewrite (Hoff2 m Hm). apply Hoff1, Hm.
Qed.

Lemma onetime_cycle_end_to_end_witness :
  ProducerThread.run_mode (Ex.scanner ONETIME) = ONETIME
  /\ write_ok (Ex.env 0) = true
  /\ close_ok (Ex.env 0) = true
  /\ Forall has_str_address [Ex.itemA; Ex.itemB]
  /\ (length (payments_queue Ex.w0) + length [Ex.itemA; Ex.itemB] < BUF_SIZE)%nat
  /\ exists w',
       run_producer (Ex.scanner ONETIME) (repeat (Ex.env 0) 7) (ProducerThread.Loop 5)
         Ex.w0
       = Some (ProducerThread.Returned, w')
       /\ payments_queue w' = [Ex.itemA; Ex.itemB; ProducerThread.create_exit_payment].
Proof.
  assert (Hstr : Forall has_str_address [Ex.itemA; Ex.itemB]).
  { repeat constructor; eexists; reflexivity. }
  assert (Hroom : (length (payments_queue Ex.w0) + length [Ex.itemA; Ex.itemB]
                   < BUF_SIZE)%nat) by (cbn; unfold BUF_SIZE; lia).
  split; [reflexivity|]. split; [reflexivity|]. split; [reflexivity|].
  split; [exact Hstr|]. split; [exact Hroom|].
  destruct (onetime_cycle_end_to_end (Ex.scanner ONETIME) (Ex.env 0) 5 11
              [Ex.itemA; Ex.itemB] Ex.w0
              (snd (ProducerThread.scan (Ex.scanner ONETIME) (Ex.env 0) 5 Ex.w0))
              eq_refl eq_refl eq_refl eq_refl Hstr Hroom)
    as (w' & total & Hrun & Hq & _).
  exists w'. split; [exact Hrun | exact Hq].
Defined.

(** ** Share tables with a NaN *)

Lemma py_sum_from_nan (values : list float) :
  fold_left float_add values S754_nan = S754_nan.
Proof. induction values as [|v values IH]; cbn; [reflexivity | exact IH]. Qed.

Lemma float_add_nan_r (x : float) : float_add x S754_nan = S754_nan.
Proof. destruct x; reflexivity. Qed.

(** X18.  A share table with a NaN among its shares never passes the
    validation, whatever the other shares are: the sum is NaN, which is
    different from 1. *)
Theorem nan_share_is_rejected (table : ShareTable) (map_name : string) :
  In S754_nan (List.map snd table) ->
  validate_map_share_sum table map_name
  = Some (ShareSumError "Map '{}' shares does not sum up to 1!" map_name).
Proof.
  intros Hin. apply in_split in Hin. destruct Hin as (l1 & l2 & Heq).
  unfold validate_map_share_sum, py_sum. rewrite Heq.
  rewrite fold_left_app. cbn [fold_left].
  rewrite float_add_nan_r, py_sum_from_nan. reflexivity.
Qed.

Lemma nan_share_is_rejected_witness :
  In S754_nan (List.map snd Ex3.shares_nan)
  /\ validate_map_share_sum Ex3.shares_nan "founders map"
     = Some (ShareSumError "Map '{}' shares does not sum up to 1!" "founders map").
Proof.
  assert (Hin : In S754_nan (List.map snd Ex3.shares_nan)).
  { right. left. reflexivity. }
  split; [exact Hin|].
  exact (nan_share_is_rejected Ex3.shares_nan "founders map" Hin).
Defined.

(** ** The first candidate cycle *)

(** X19.  Started with a non-positive initial cycle, the scanner's first
    candidate is [abs(initial_cycle)] cycles before the newest payable
    cycle, [current_cycle - (NB_FREEZE_CYCLE + 1)]; as long as the chain's
    cycle has not gone back since, a pass of the loop finds that candidate
    payable: it neither waits for blocks nor leaves as run mode PENDING
    with nothing pending. *)
Theorem non_positive_initial_cycle_is_payable (s : ProducerThread.self)
    (env env' : Env) (cur lvl cur' : Z) (w w2 w' : World) (p' : ProducerThread.pc) :
  ProducerThread.initial_payment_cycle s <= 0 ->
  get_current_cycle env = Some cur ->
  get_current_level env' = Some (lvl, cur') ->
  cur <= cur' ->
  exists c0,
    ProducerThread.run_step s env ProducerThread.Start w
    = Some (ProducerThread.Loop c0, w)
    /\ c0 = ProducerThread.freeze_bound s cur
            - Z.abs (ProducerThread.initial_payment_cycle s)
    /\ payable s c0 cur'
    /\ (ProducerThread.run_step s env' (ProducerThread.Loop c0) w2 = Some (p', w') ->
        (forall n, p' <> ProducerThread.Wait c0 n)
        /\ p' <> ProducerThread.PutExitPayment ProducerThread.ExitPending).
Proof.
  intros Hinit Hcur Hlvl Hle.
  cbn [ProducerThread.run_step]. unfold ProducerThread.start. rewrite Hcur.
  apply Z.leb_le in Hinit. rewrite Hinit.
  eexists. split; [reflexivity|].
  assert (Hpay : payable s
                   (cur - Z.abs (ProducerThread.initial_payment_cycle s)
                    - (NB_FREEZE_CYCLE (ProducerThread.nw_config s) + 1)) cur').
  { unfold payable. lia. }
  split; [unfold ProducerThread.freeze_bound; lia|]. split; [exact Hpay|].
  intros Hstep. unfold ProducerThread.scan in Hstep. rewrite Hlvl in Hstep.
  assert (Hb : (cur - Z.abs (ProducerThread.initial_payment_cycle s)
                - (NB_FREEZE_CYCLE (ProducerThread.nw_config s) + 1)
                <=? ProducerThread.freeze_bound s cur') = true).
  { apply Z.leb_le. exact Hpay. }
  rewrite Hb in Hstep.
  unfold ProducerThread.process_cycle, ProducerThread.on_error in Hstep.
  repeat case_match; simplify_eq; split; try discriminate; intros n; discriminate.
Qed.

Lemma non_positive_initial_cycle_is_payable_witness :
  ProducerThread.initial_payment_cycle Ex4.scanner0 <= 0
  /\ get_current_cycle (Ex.env 0) = Some 11
  /\ get_current_level (Ex.env 0) = Some (1500, 11)
  /\ 11 <= 11
  /\ ProducerThread.run_step Ex4.scanner0 (Ex.env 0) ProducerThread.Start Ex.w0
     = Some (ProducerThread.Loop 5, Ex.w0)
  /\ payable Ex4.scanner0 5 11.
Proof.
  assert (Hinit : ProducerThread.initial_payment_cycle Ex4.scanner0 <= 0) by (cbn; lia).
  split; [exact Hinit|]. split; [reflexivity|]. split; [reflexivity|].
  split; [lia|].
  destruct (non_positive_initial_cycle_is_payable Ex4.scanner0 (Ex.env 0) (Ex.env 0)
              11 1500 11 Ex.w0 Ex.w0 Ex.w0 ProducerThread.Returned
              Hinit eq_refl eq_refl ltac:(lia)) as (c0 & Hstart & Hc0 & Hpay & _).
  assert (H5 : c0 = 5) by (rewrite Hc0; reflexivity).
  rewrite H5 in Hstart, Hpay. split; [exact Hstart | exact Hpay].
Defined.

(** ** The report row of a payment about to be enqueued *)

Lemma producer_step_to_put (s : ProducerThread.self) (env : Env)
    (p : ProducerThread.pc) (w w' : World) (c cur : Z) (item : PaymentItem)
    (rest : list PaymentItem) :
  ProducerThread.run_step s env p w
  = Some (ProducerThread.PutItem c cur item rest, w') ->
  files w' !! ProducerThread.report_path s c
  = Some (default [] (files w !! ProducerThread.report_path s c)
          ++ [ProducerThread.item_row s item]).
Proof.
  intros Hstep.
  destruct p as [|c0|c0 cur0 [|item0 rest0]|c0 cur0 item0 rest0|why|c0 [|n]| |];
    cbn [ProducerThread.run_step] in Hstep;
    unfold ProducerThread.start, ProducerThread.scan, ProducerThread.process_cycle,
      ProducerThread.finish_cycle, ProducerThread.process_item,
      ProducerThread.put_item, ProducerThread.put_exit, ProducerThread.on_error
      in Hstep;
    repeat case_match; simplify_eq.
  cbn [files writerow]. now rewrite lookup_insert_eq.
Qed.

Lemma consumer_step_keeps_report (s : ProducerThread.self) (c : ConsumerThread.self)
    (env : Env) (p p' : ConsumerThread.pc) (w w' : World) (cy : Z) :
  ConsumerThread.run_step c env p w = Some (p', w') ->
  files w' !! ProducerThread.report_path s cy = files w !! ProducerThread.report_path s cy.
Proof.
  intros Hstep.
  destruct p as [| |item|]; cbn [ConsumerThread.run_step] in Hstep;
    unfold ConsumerThread.get, ConsumerThread.finish, ConsumerThread.on_error in Hstep;
    repeat case_match; simplify_eq;
    cbn [files logger emit put writerow open_w makedirs]; try reflexivity.
  all: apply lookup_insert_ne; eapply marker_is_not_report; eassumption.
Qed.

(** X20.  In every state the threads can reach, whatever the executors
    have done in between, a payment whose [put] is pending has its row in
    the report of its cycle already, as the last row: no payment is put on
    the queue before its report row is written. *)
Theorem pending_put_has_report_row (t : Threads) (fs : gmap string (list Row))
    (ds : gset string) (st : System) (c cur : Z) (item : PaymentItem)
    (rest : list PaymentItem) :
  reachable t fs ds st ->
  producer st = ProducerThread.PutItem c cur item rest ->
  exists rows,
    files (world st) !! ProducerThread.report_path (the_producer t) c
    = Some (rows ++ [ProducerThread.item_row (the_producer t) item]).
Proof.
  intros Hreach. revert c cur item rest.
  induction Hreach as [|st st' Hreach IH Hstep]; intros c cur item rest Hp.
  - discriminate Hp.
  - destruct Hstep as [env st p' w' Hrun | env st i cs p p' w' Hc Hq Hrun]; cbn in *.
    + subst p'. eexists. eapply producer_step_to_put. exact Hrun.
    + destruct (IH c cur item rest Hp) as [rows Hrows]. exists rows.
      rewrite (consumer_step_keeps_report (the_producer t) _ _ _ _ _ _ c Hrun).
      exact Hrows.
Qed.

Lemma pending_put_has_report_row_witness :
  exists st,
    reachable (Ex.threads FOREVER) ∅ ∅ st
    /\ producer st = ProducerThread.PutItem 5 11 Ex.itemA [Ex.itemB]
    /\ exists rows,
         files (world st) !! "reports/5.csv"
         = Some (rows ++ [ProducerThread.item_row (Ex.scanner FOREVER) Ex.itemA]).
Proof.
  destruct (sys_after (Ex.threads FOREVER) (repeat (Ex.env 0) 3) ∅ ∅) as [st|] eqn:Hst;
    [|vm_compute in Hst; discriminate Hst].
  exists st.
  pose proof (reachable_sys_after _ _ _ _ _ Hst) as Hreach.
  assert (Hp : producer st = ProducerThread.PutItem 5 11 Ex.itemA [Ex.itemB]).
  { vm_compute in Hst. injection Hst as <-. reflexivity. }
  split; [exact Hreach|]. split; [exact Hp|].
  exact (pending_put_has_report_row (Ex.threads FOREVER) ∅ ∅ st 5 11 Ex.itemA
           [Ex.itemB] Hreach Hp).
Defined.
